(** * Framez: like/hide interactions, client store and Convex mutations

    Shallow embedding of
    - the zustand store [useSettingsStore] (src/src/store/settingsStore.ts):
      [setLikedPostIds], [applyLikeState], [setHiddenPostIds], [toggleLike],
      [hidePost], [unhidePost];
    - the hook [usePostInteractions] (src/src/hooks/useThemeColors.ts):
      [toggleLike] and [hidePost], split at their single [await];
    - the Convex mutations [toggleLike], [hidePost], [unhidePost], [create]
      and [deletePost] (src/unnamed/part_018). *)

From Stdlib Require Import String Ascii List Bool Arith Lia.
Import ListNotations.
Open Scope string_scope.
Open Scope list_scope.

(* ------------------------------------------------------------------ *)
(** ** Client store *)

Module Store.

(** Only the fields of [SettingsState] that the like/hide code reads. *)
Record SettingsState := mkState {
  currentUserId : string;
  likedPostIds : list string;
  hiddenPostIds : list string
}.

(** [Array.prototype.includes] on a string array. *)
Definition includes (xs : list string) (x : string) : bool :=
  existsb (String.eqb x) xs.

(** [xs.filter((id) => id !== x)]. *)
Definition remove_id (xs : list string) (x : string) : list string :=
  filter (fun id => negb (String.eqb id x)) xs.

(** [Array.from(new Set(ids))]: keeps the first occurrence of each id, in
    insertion order. *)
Fixpoint dedup_acc (seen : list string) (ids : list string) : list string :=
  match ids with
  | [] => seen
  | id :: rest =>
      if includes seen id then dedup_acc seen rest
      else dedup_acc (seen ++ [id]) rest
  end.

Definition array_from_set (ids : list string) : list string := dedup_acc [] ids.

(** What the updater given to zustand's [set] returns: the very [state]
    object ([Keep], on which zustand skips notifying subscribers since
    [Object.is(next, state)]), or a new partial state merged into the store. *)
Inductive update :=
  | Keep
  | Patch (s : SettingsState).

(** zustand's [set]: the new state and whether subscribers are notified. *)
Definition commit (s : SettingsState) (u : update) : SettingsState * bool :=
  match u with
  | Keep => (s, false)
  | Patch s' => (s', true)
  end.

Definition with_liked (s : SettingsState) (l : list string) : SettingsState :=
  mkState (currentUserId s) l (hiddenPostIds s).

Definition with_hidden (s : SettingsState) (h : list string) : SettingsState :=
  mkState (currentUserId s) (likedPostIds s) h.

Definition setLikedPostIds (ids : list string) (s : SettingsState) : update :=
  Patch (with_liked s (array_from_set ids)).

Definition applyLikeState (postId : string) (liked : bool) (s : SettingsState)
  : update :=
  let hasLiked := includes (likedPostIds s) postId in
  if liked && hasLiked then Keep
  else if negb liked && negb hasLiked then Keep
  else Patch (with_liked s
         (if liked then likedPostIds s ++ [postId]
          else remove_id (likedPostIds s) postId)).

Definition setHiddenPostIds (ids : list string) (s : SettingsState) : update :=
  Patch (with_hidden s (array_from_set ids)).

Definition toggleLike (postId : string) (s : SettingsState) : update :=
  let alreadyLiked := includes (likedPostIds s) postId in
  let updatedLikes :=
    if alreadyLiked then remove_id (likedPostIds s) postId
    else likedPostIds s ++ [postId] in
  Patch (with_liked s updatedLikes).

Definition hidePost (postId : string) (s : SettingsState) : update :=
  if includes (hiddenPostIds s) postId then Keep
  else Patch (with_hidden s (hiddenPostIds s ++ [postId])).

Definition unhidePost (postId : string) (s : SettingsState) : update :=
  if negb (includes (hiddenPostIds s) postId) then Keep
  else Patch (with_hidden s (remove_id (hiddenPostIds s) postId)).

(** Run an action on the store, forgetting the notification flag. *)
Definition run (u : SettingsState -> update) (s : SettingsState) : SettingsState :=
  fst (commit s (u s)).

(** The list invariant of the store: no id twice in either list. *)
Definition nodup_state (s : SettingsState) : Prop :=
  NoDup (likedPostIds s) /\ NoDup (hiddenPostIds s).

End Store.

(* ------------------------------------------------------------------ *)
(** ** The hook [usePostInteractions] *)

Module Hook.
Import Store.

(** Results of the Convex mutations, as the client receives them. *)
Record LikeResult := mkLikeResult { liked : bool; likeCount : nat }.
Record HideResult := mkHideResult { hidden : bool }.

(** How the awaited [useMutation] call settles: it resolves with the
    mutation's result or rejects with an error (its message). *)
Inductive outcome (A : Type) :=
  | Resolved (a : A)
  | Rejected (e : string).
Arguments Resolved {A} a.
Arguments Rejected {A} e.

(** The synchronous part of a handler, up to its [await]: either it throws
    before any network call, or it issues the mutation call for
    [(postId, userId)], remembering the flag it captured ([wasLiked] or
    [wasHidden]). *)
Inductive start :=
  | Throw (e : string)
  | Call (postId userId : string) (was : bool).

(** How the returned promise settles. *)
Inductive completion (A : Type) :=
  | Return (a : A)
  | Rethrow (e : string).
Arguments Return {A} a.
Arguments Rethrow {A} e.

Definition signInToLike := "You need to be signed in to like posts.".
Definition signInToHide := "You need to be signed in to hide posts.".
Definition cannotHideOwn := "You cannot hide your own post.".

(** The hook reads [currentUserId], [likedPostIds] and [hiddenPostIds]
    through selectors; they are the store's values when the handler runs. *)

(** [toggleLike], lines 33-39: the guard, [wasLiked], the local flip. *)
Definition toggleLike_begin (postId : string) (s : SettingsState)
  : SettingsState * start :=
  if String.eqb (currentUserId s) "" then (s, Throw signInToLike)
  else
    let wasLiked := includes (likedPostIds s) postId in
    (run (Store.toggleLike postId) s, Call postId (currentUserId s) wasLiked).

(** [toggleLike], lines 41-51: resumed on the store as it is when the
    mutation settles. *)
Definition toggleLike_settle (postId : string) (wasLiked : bool)
  (o : outcome LikeResult) (s : SettingsState)
  : SettingsState * completion LikeResult :=
  match o with
  | Resolved result => (run (applyLikeState postId (liked result)) s, Return result)
  | Rejected error => (run (applyLikeState postId wasLiked) s, Rethrow error)
  end.

(** One invocation with nothing else touching the store while it waits. *)
Definition toggleLike (postId : string) (o : outcome LikeResult) (s : SettingsState)
  : SettingsState * completion LikeResult :=
  let '(s1, st) := toggleLike_begin postId s in
  match st with
  | Throw e => (s1, Rethrow e)
  | Call _ _ wasLiked => toggleLike_settle postId wasLiked o s1
  end.

(** [hidePost], lines 57-69. *)
Definition hidePost_begin (postId postAuthorId : string) (s : SettingsState)
  : SettingsState * start :=
  if String.eqb (currentUserId s) "" then (s, Throw signInToHide)
  else if String.eqb (currentUserId s) postAuthorId then (s, Throw cannotHideOwn)
  else
    let wasHidden := includes (hiddenPostIds s) postId in
    let s1 := if negb wasHidden then run (Store.hidePost postId) s else s in
    (s1, Call postId (currentUserId s) wasHidden).

(** [hidePost], lines 71-87. *)
Definition hidePost_settle (postId : string) (wasHidden : bool)
  (o : outcome HideResult) (s : SettingsState)
  : SettingsState * completion HideResult :=
  match o with
  | Resolved result =>
      ((if negb (hidden result) then run (unhidePost postId) s else s), Return result)
  | Rejected error =>
      ((if negb wasHidden then run (unhidePost postId) s else s), Rethrow error)
  end.

Definition hidePost (postId postAuthorId : string) (o : outcome HideResult)
  (s : SettingsState) : SettingsState * completion HideResult :=
  let '(s1, st) := hidePost_begin postId postAuthorId s in
  match st with
  | Throw e => (s1, Rethrow e)
  | Call _ _ wasHidden => hidePost_settle postId wasHidden o s1
  end.

End Hook.

(* ------------------------------------------------------------------ *)
(** ** Convex mutations on [posts], [postLikes] and [hiddenPosts] *)

Module Server.

(** A [posts] document, with the fields these mutations read or write
    (the others: names, content, media, comments, are left out). *)
Record Post := mkPost { p_id : nat; authorId : string; likeCount : nat }.

(** A [postLikes] or [hiddenPosts] document: both tables have the schema
    [{postId, userId, createdAt}] (convex/schema.ts). *)
Record Row := mkRow { r_id : nat; postId : nat; userId : string; createdAt : nat }.

(** Document ids are drawn from one counter. *)
Record DB := mkDB {
  posts : list Post;
  postLikes : list Row;
  hiddenPosts : list Row;
  nextId : nat
}.

Definition db_empty : DB := mkDB [] [] [] 0.

Inductive table := TPostLikes | THiddenPosts.

Definition rows (t : table) (db : DB) : list Row :=
  match t with TPostLikes => postLikes db | THiddenPosts => hiddenPosts db end.

Definition set_rows (t : table) (rs : list Row) (db : DB) : DB :=
  match t with
  | TPostLikes => mkDB (posts db) rs (hiddenPosts db) (nextId db)
  | THiddenPosts => mkDB (posts db) (postLikes db) rs (nextId db)
  end.

(** A mutation: reads and writes the database, or throws (Convex then
    discards its writes). *)
Inductive result (A : Type) :=
  | Ok (a : A) (db : DB)
  | Err (msg : string).
Arguments Ok {A} a db.
Arguments Err {A} msg.

Definition M (A : Type) := DB -> result A.

Definition ret {A} (a : A) : M A := fun db => Ok a db.
Definition bind {A B} (m : M A) (k : A -> M B) : M B :=
  fun db => match m db with Ok a db' => k a db' | Err e => Err e end.
Definition throw {A} (msg : string) : M A := fun _ => Err msg.

Notation "x <- m ;; k" := (bind m (fun x => k))
  (at level 61, m at next level, right associativity).
Notation "m ;;; k" := (bind m (fun _ => k))
  (at level 61, right associativity).

(** [ctx.db.get(id)] on [posts]. *)
Definition db_get (pid : nat) : M (option Post) :=
  fun db => Ok (find (fun p => Nat.eqb (p_id p) pid) (posts db)) db.

Definition match_post_user (pid : nat) (uid : string) (r : Row) : bool :=
  Nat.eqb (postId r) pid && String.eqb (userId r) uid.

(** [.withIndex("by_post_user", q => q.eq("postId", pid).eq("userId", uid))]. *)
Definition query_by_post_user (t : table) (pid : nat) (uid : string) : M (list Row) :=
  fun db => Ok (filter (match_post_user pid uid) (rows t db)) db.

(** [.withIndex("by_post", q => q.eq("postId", pid)).collect()]. *)
Definition query_by_post (t : table) (pid : nat) : M (list Row) :=
  fun db => Ok (filter (fun r => Nat.eqb (postId r) pid) (rows t db)) db.

(** Convex's [.unique()]: [null] for no match, the document for one,
    an error for more. *)
Definition unique (rs : list Row) : M (option Row) :=
  match rs with
  | [] => ret None
  | [r] => ret (Some r)
  | _ => throw "unique() query returned more than one result"
  end.

(** [ctx.db.insert(t, {postId, userId, createdAt})]. *)
Definition db_insert (t : table) (pid : nat) (uid : string) (now : nat) : M nat :=
  fun db =>
    let id := nextId db in
    let db1 := set_rows t (rows t db ++ [mkRow id pid uid now]) db in
    Ok id (mkDB (posts db1) (postLikes db1) (hiddenPosts db1) (S id)).

(** [ctx.db.delete(id)] on a row table. *)
Definition db_delete (t : table) (id : nat) : M unit :=
  fun db => Ok tt (set_rows t (filter (fun r => negb (Nat.eqb (r_id r) id)) (rows t db)) db).

(** [ctx.db.patch(pid, {likeCount: n})]. *)
Definition patch_likeCount (pid n : nat) (p : Post) : Post :=
  if Nat.eqb (p_id p) pid then mkPost (p_id p) (authorId p) n else p.

Definition db_patch_likeCount (pid : nat) (n : nat) : M unit :=
  fun db => Ok tt (mkDB (map (patch_likeCount pid n) (posts db))
                        (postLikes db) (hiddenPosts db) (nextId db)).

(** [ctx.db.insert("posts", ...)]. *)
Definition db_insert_post (author : string) (lc : nat) : M nat :=
  fun db =>
    let id := nextId db in
    Ok id (mkDB (posts db ++ [mkPost id author lc]) (postLikes db) (hiddenPosts db) (S id)).

(** [ctx.db.delete(id)] on [posts]. *)
Definition db_delete_post (pid : nat) : M unit :=
  fun db =>
    Ok tt (mkDB (filter (fun p => negb (Nat.eqb (p_id p) pid)) (posts db))
                (postLikes db) (hiddenPosts db) (nextId db)).

Fixpoint delete_all (t : table) (rs : list Row) : M unit :=
  match rs with
  | [] => ret tt
  | r :: rest => db_delete t (r_id r);;; delete_all t rest
  end.

Record LikeResult := mkLikeResult { liked : bool; resLikeCount : nat }.
Record HideResult := mkHideResult { hidden : bool }.

Definition postNotFound := "Post not found".
Definition cannotHideOwn := "You cannot hide your own post.".

(** [create], with the fields modelled: [likeCount: args.likeCount ?? 0]. *)
Definition create (author : string) (argLikeCount : option nat) : M nat :=
  db_insert_post author (match argLikeCount with Some n => n | None => 0 end).

(** [deletePost]. The image's storage deletion, awaited after the two
    checks and before any document is deleted, is left out: [Post] has no
    [imageStorageId]; if that call throws, the mutation throws and writes
    nothing. *)
Definition deletePost (id : nat) (requesterId : string) : M unit :=
  post <- db_get id ;;
  match post with
  | None => throw postNotFound
  | Some p =>
      if negb (String.eqb (authorId p) requesterId)
      then throw "You can only delete your own post."
      else
        existingLikes <- query_by_post TPostLikes id ;;
        delete_all TPostLikes existingLikes ;;;
        hiddenEntries <- query_by_post THiddenPosts id ;;
        delete_all THiddenPosts hiddenEntries ;;;
        db_delete_post id
  end.

(** [toggleLike]; [now] is [Date.now()]. *)
Definition toggleLike (pid : nat) (uid : string) (now : nat) : M LikeResult :=
  post <- db_get pid ;;
  match post with
  | None => throw postNotFound
  | Some _ =>
      found <- query_by_post_user TPostLikes pid uid ;;
      existingLike <- unique found ;;
      match existingLike with
      | Some r => db_delete TPostLikes (r_id r)
      | None => _ <- db_insert TPostLikes pid uid now ;; ret tt
      end ;;;
      likes <- query_by_post TPostLikes pid ;;
      db_patch_likeCount pid (length likes) ;;;
      ret (mkLikeResult (match existingLike with Some _ => false | None => true end) (length likes))
  end.

Definition hidePost (pid : nat) (uid : string) (now : nat) : M HideResult :=
  post <- db_get pid ;;
  match post with
  | None => throw postNotFound
  | Some p =>
      if String.eqb (authorId p) uid then throw cannotHideOwn
      else
        found <- query_by_post_user THiddenPosts pid uid ;;
        existingEntry <- unique found ;;
        match existingEntry with
        | Some _ => ret (mkHideResult true)
        | None =>
            _ <- db_insert THiddenPosts pid uid now ;;
            ret (mkHideResult true)
        end
  end.

Definition unhidePost (pid : nat) (uid : string) : M HideResult :=
  found <- query_by_post_user THiddenPosts pid uid ;;
  existingEntry <- unique found ;;
  match existingEntry with
  | Some r => db_delete THiddenPosts (r_id r) ;;; ret (mkHideResult false)
  | None => ret (mkHideResult false)
  end.

(** A client call of one of the mutations above. *)
Inductive call :=
  | CCreate (author : string) (argLikeCount : option nat)
  | CDeletePost (id : nat) (requesterId : string)
  | CToggleLike (pid : nat) (uid : string) (now : nat)
  | CHidePost (pid : nat) (uid : string) (now : nat)
  | CUnhidePost (pid : nat) (uid : string).

(** A mutation is a transaction: when it throws, none of its writes stay. *)
Definition commit {A} (m : M A) (db : DB) : DB :=
  match m db with Ok _ db' => db' | Err _ => db end.

Definition exec (db : DB) (c : call) : DB :=
  match c with
  | CCreate a lc => commit (create a lc) db
  | CDeletePost id req => commit (deletePost id req) db
  | CToggleLike pid uid now => commit (toggleLike pid uid now) db
  | CHidePost pid uid now => commit (hidePost pid uid now) db
  | CUnhidePost pid uid => commit (unhidePost pid uid) db
  end.

(** The database after a sequence of calls, from the empty database. *)
Definition run_trace (tr : list call) : DB := fold_left exec tr db_empty.

(** The number of documents of [rs] for post [pid]. *)
Definition count_for (pid : nat) (rs : list Row) : nat :=
  length (filter (fun r => Nat.eqb (postId r) pid) rs).

(** [r]'s id is none of the ids of [rs]: what survives deleting [rs]. *)
Definition not_in_ids (rs : list Row) (r : Row) : bool :=
  forallb (fun d => negb (Nat.eqb (r_id r) (r_id d))) rs.

(** The invariant the mutations keep on their tables: at most one
    [postLikes] and at most one [hiddenPosts] document per
    [(postId, userId)] (so [.unique()] never throws), and every
    [hiddenPosts] document names an existing post of which its user is not
    the author. *)
Definition WF (db : DB) : Prop :=
  (forall pid uid, length (filter (match_post_user pid uid) (postLikes db)) <= 1) /\
  (forall pid uid, length (filter (match_post_user pid uid) (hiddenPosts db)) <= 1) /\
  (forall r, In r (hiddenPosts db) ->
     exists p, find (fun q => Nat.eqb (p_id q) (postId r)) (posts db) = Some p /\
               authorId p <> userId r).

(** Document ids come from [nextId]: every post and row id, and every
    post a row names, is below it. *)
Definition Fresh (db : DB) : Prop :=
  (forall p, In p (posts db) -> p_id p < nextId db) /\
  (forall r, In r (postLikes db) \/ In r (hiddenPosts db) ->
     r_id r < nextId db /\ postId r < nextId db).

End Server.

(* ------------------------------------------------------------------ *)
(** ** More of the store: searches, profile, notifications *)

(** Strings are modelled as ASCII; on ASCII, JavaScript's [trim] removes
    the characters 9-13 and 32, and [toLowerCase] maps A-Z to a-z. *)
Module Text.

Definition is_js_space (c : ascii) : bool :=
  let n := nat_of_ascii c in (Nat.leb 9 n) && (Nat.leb n 13) || (Nat.eqb n 32).

Fixpoint drop_spaces (cs : list ascii) : list ascii :=
  match cs with
  | c :: rest => if is_js_space c then drop_spaces rest else cs
  | [] => []
  end.

(** [String.prototype.trim]. *)
Definition trim (s : string) : string :=
  string_of_list_ascii
    (rev (drop_spaces (rev (drop_spaces (list_ascii_of_string s))))).

Definition lower_char (c : ascii) : ascii :=
  let n := nat_of_ascii c in
  if (Nat.leb 65 n) && (Nat.leb n 90) then ascii_of_nat (n + 32) else c.

(** [String.prototype.toLowerCase]. *)
Definition toLowerCase (s : string) : string :=
  string_of_list_ascii (map lower_char (list_ascii_of_string s)).

(** [normalizeUsername]: [value.trim().toLowerCase()]. *)
Definition normalizeUsername (value : string) : string := toLowerCase (trim value).

(** The character class [[a-z0-9_]]. *)
Definition username_char (c : ascii) : bool :=
  let n := nat_of_ascii c in
  (Nat.leb 97 n) && (Nat.leb n 122) || (Nat.leb 48 n) && (Nat.leb n 57) || (Nat.eqb n 95).

(** [/^[a-z0-9_]{3,20}$/.test(s)]. *)
Definition username_format (s : string) : bool :=
  (Nat.leb 3 (String.length s)) && (Nat.leb (String.length s) 20)
  && forallb username_char (list_ascii_of_string s).

End Text.

(** [addRecentSearch]; [None] when it returns before calling [set]. *)
Module Searches.

Definition addRecentSearch (term : string) (recentSearches : list string)
  : option (list string) :=
  let value := Text.trim term in
  if String.eqb value "" then None
  else
    let next := value :: filter (fun item => negb (String.eqb item value)) recentSearches in
    Some (firstn 6 next).

(** The store's list after the action. *)
Definition run_add (term : string) (recentSearches : list string) : list string :=
  match addRecentSearch term recentSearches with
  | Some l => l
  | None => recentSearches
  end.

End Searches.

(** The [User] type (src/unnamed/part_008), with the fields the store reads. *)
Module Users.
Record User := mkUser {
  _id : string;
  clerkId : string;
  name : string;
  username : option string;
  displayName : option string
}.
End Users.

(** The profile slice of the store: [displayName], [username],
    [currentUserId], [people], [takenUsernames]. *)
Module Profile.
Import Users.

Record ProfileState := mkProfile {
  displayName : string;
  username : string;
  currentUserId : string;
  people : list User;
  takenUsernames : list string
}.

Record AttemptResult := mkAttempt { success : bool; message : option string }.

Definition msgEmpty := "Enter a username to continue.".
Definition msgSame := "You are already using this username.".
Definition msgFormat := "Use 3-20 characters, lowercase letters, numbers, or underscores.".
Definition msgTaken := "That username is not available.".

(** [person.username ?? person.displayName ?? ''], normalized. *)
Definition person_handle (p : User) : string :=
  Text.normalizeUsername
    (match Users.username p with
     | Some u => u
     | None => match Users.displayName p with Some d => d | None => "" end
     end).

(** [attemptUsernameChange]: the new state and the returned object. *)
Definition attemptUsernameChange (desired : string) (s : ProfileState)
  : ProfileState * AttemptResult :=
  let next := Text.normalizeUsername desired in
  let current := Text.normalizeUsername (username s) in
  if String.eqb next "" then (s, mkAttempt false (Some msgEmpty))
  else if String.eqb next current then (s, mkAttempt false (Some msgSame))
  else if negb (Text.username_format next) then (s, mkAttempt false (Some msgFormat))
  else if Store.includes (takenUsernames s) next then (s, mkAttempt false (Some msgTaken))
  else
    (mkProfile (displayName s) next (currentUserId s)
       (map (fun person =>
               if String.eqb (Users._id person) (currentUserId s)
               then mkUser (Users._id person) (clerkId person) (name person)
                           (Some next) (Users.displayName person)
               else person) (people s))
       (filter (fun n => negb (String.eqb n current)) (takenUsernames s) ++ [next]),
     mkAttempt true None).

(** [setPeople]. *)
Definition setPeople (ps : list User) (s : ProfileState) : ProfileState :=
  let usernames := filter (fun v => negb (String.eqb v "")) (map person_handle ps) in
  let me := find (fun p => String.eqb (clerkId p) (currentUserId s)) ps in
  mkProfile
    (if String.eqb (displayName s) "Framez User"
     then match me with
          | Some p => match Users.displayName p with Some d => d | None => displayName s end
          | None => displayName s
          end
     else displayName s)
    (if String.eqb (username s) "framezer"
     then match me with
          | Some p => match Users.username p with Some u => u | None => username s end
          | None => username s
          end
     else username s)
    (currentUserId s) ps (Store.array_from_set usernames).

End Profile.

(** The notifications slice of the store. *)
Module Notifications.

Inductive kind := KLike | KReply | KFollow | KSystem.

Record NotificationItem := mkNotification {
  id : string;
  type : kind;
  title : string;
  description : string;
  read : bool;
  timestamp : nat
}.

Definition mark_read (n : NotificationItem) : NotificationItem :=
  mkNotification (id n) (type n) (title n) (description n) true (timestamp n).

Definition markNotificationRead (nid : string) (ns : list NotificationItem)
  : list NotificationItem :=
  map (fun n => if String.eqb (id n) nid then mark_read n else n) ns.

Definition markAllNotificationsRead (ns : list NotificationItem) : list NotificationItem :=
  map mark_read ns.

Definition getUnreadCount (ns : list NotificationItem) : nat :=
  length (filter (fun n => negb (read n)) ns).

End Notifications.

(* ------------------------------------------------------------------ *)
(** ** The hook against the Convex mutations *)

Module Sync.
Import Store Hook.

(** The client's view of a mutation: resolved with its result (and the
    database it wrote) or rejected with its error (nothing written). *)
Definition remote {A B} (conv : A -> B) (m : Server.result A) (db : Server.DB)
  : outcome B * Server.DB :=
  match m with
  | Server.Ok a db' => (Resolved (conv a), db')
  | Server.Err e => (Rejected e, db)
  end.

Definition like_to_client (r : Server.LikeResult) : Hook.LikeResult :=
  Hook.mkLikeResult (Server.liked r) (Server.resLikeCount r).

Definition hide_to_client (r : Server.HideResult) : Hook.HideResult :=
  Hook.mkHideResult (Server.hidden r).

(** One [toggleLike] of the hook, its mutation call answered by the Convex
    [toggleLike] on [db]; [postId] is the client string of the post whose
    Convex id is [pid] ([postId as Id<'posts'>]). *)
Definition like_round (postId : string) (pid : nat) (now : nat)
  (s : SettingsState) (db : Server.DB) : SettingsState * Server.DB :=
  match toggleLike_begin postId s with
  | (s1, Throw _) => (s1, db)
  | (s1, Call _ uid wasLiked) =>
      let '(o, db') := remote like_to_client (Server.toggleLike pid uid now db) db in
      (fst (toggleLike_settle postId wasLiked o s1), db')
  end.

(** The same for [hidePost]. *)
Definition hide_round (postId postAuthorId : string) (pid : nat) (now : nat)
  (s : SettingsState) (db : Server.DB) : SettingsState * Server.DB :=
  match hidePost_begin postId postAuthorId s with
  | (s1, Throw _) => (s1, db)
  | (s1, Call _ uid wasHidden) =>
      let '(o, db') := remote hide_to_client (Server.hidePost pid uid now db) db in
      (fst (hidePost_settle postId wasHidden o s1), db')
  end.

(** [getUserPreferences]: the post ids of the user's like and hidden
    documents. *)
Definition getUserPreferences (uid : string) (db : Server.DB) : list nat * list nat :=
  (map Server.postId (filter (fun r => String.eqb (Server.userId r) uid) (Server.postLikes db)),
   map Server.postId (filter (fun r => String.eqb (Server.userId r) uid) (Server.hiddenPosts db))).

(** A client [Post] (src/src/types/post.ts) with the field the feed reads. *)
Record ClientPost := mkClientPost { _id : string; authorId : string }.

(** HomeScreen's [visiblePosts]. *)
Definition visiblePosts (posts : list ClientPost) (hiddenPostIds : list string)
  : list ClientPost :=
  filter (fun post => negb (includes hiddenPostIds (_id post))) posts.

End Sync.

(* ------------------------------------------------------------------ *)
(** ** Facts about the store's list operations *)

Module StoreFacts.
Import Store.

Lemma includes_In (xs : list string) (x : string) :
  includes xs x = true <-> In x xs.
Proof.
  unfold includes. rewrite existsb_exists. split.
  - intros [y [Hy Heq]]. apply String.eqb_eq in Heq. subst. exact Hy.
  - intros H. exists x. split; [exact H | apply String.eqb_refl].
Qed.

Lemma includes_false (xs : list string) (x : string) :
  includes xs x = false <-> ~ In x xs.
Proof.
  rewrite <- includes_In. destruct (includes xs x); split; congruence.
Qed.

Lemma In_remove_id (xs : list string) (x y : string) :
  In y (remove_id xs x) <-> In y xs /\ y <> x.
Proof.
  unfold remove_id. rewrite filter_In, negb_true_iff, String.eqb_neq.
  tauto.
Qed.

Lemma remove_id_absent (xs : list string) (x : string) :
  ~ In x xs -> remove_id xs x = xs.
Proof.
  induction xs as [|y ys IH]; intros Hn; simpl; [reflexivity|].
  destruct (String.eqb_spec y x) as [->|Hne].
  - exfalso. apply Hn. left. reflexivity.
  - simpl. f_equal. apply IH. intros H. apply Hn. right. exact H.
Qed.

Lemma remove_id_app_single (xs : list string) (x : string) :
  remove_id (xs ++ [x]) x = remove_id xs x.
Proof.
  unfold remove_id. rewrite filter_app. simpl.
  rewrite String.eqb_refl. simpl. apply app_nil_r.
Qed.

Lemma NoDup_remove_id (xs : list string) (x : string) :
  NoDup xs -> NoDup (remove_id xs x).
Proof. intros H. apply NoDup_filter. exact H. Qed.

Lemma NoDup_snoc (xs : list string) (x : string) :
  NoDup xs -> ~ In x xs -> NoDup (xs ++ [x]).
Proof.
  intros Hd Hn. apply NoDup_app; auto.
  - constructor; [intros []|constructor].
  - intros y Hy [Heq|[]]. subst. contradiction.
Qed.

Lemma dedup_acc_NoDup (seen ids : list string) :
  NoDup seen -> NoDup (dedup_acc seen ids).
Proof.
  revert seen. induction ids as [|id rest IH]; intros seen Hs; simpl; [exact Hs|].
  destruct (includes seen id) eqn:E.
  - apply IH. exact Hs.
  - apply IH. apply NoDup_snoc; [exact Hs|]. apply includes_false. exact E.
Qed.

Lemma dedup_acc_In (seen ids : list string) (y : string) :
  In y (dedup_acc seen ids) <-> In y seen \/ In y ids.
Proof.
  revert seen. induction ids as [|id rest IH]; intros seen; simpl.
  - tauto.
  - destruct (includes seen id) eqn:E.
    + rewrite IH. apply includes_In in E. split; [tauto|].
      intros [H|[<-|H]]; auto.
    + rewrite IH, in_app_iff. simpl. split; [tauto|].
      intros [H|[<-|H]]; auto.
Qed.

(** Membership of [postId] after [applyLikeState postId liked]. *)
Lemma applyLikeState_member (postId : string) (liked : bool) (s : SettingsState) :
  In postId (likedPostIds (run (applyLikeState postId liked) s)) <-> liked = true.
Proof.
  unfold run, applyLikeState.
  destruct liked, (includes (likedPostIds s) postId) eqn:E; simpl.
  - apply includes_In in E. tauto.
  - rewrite in_app_iff. simpl. tauto.
  - rewrite In_remove_id. split; [intros [_ H]; contradiction H; reflexivity|discriminate].
  - apply includes_false in E. split; [intros H; contradiction|discriminate].
Qed.

(** [applyLikeState] leaves every other id's membership as it was. *)
Lemma applyLikeState_other (postId : string) (liked : bool) (s : SettingsState) (y : string) :
  y <> postId ->
  In y (likedPostIds (run (applyLikeState postId liked) s)) <-> In y (likedPostIds s).
Proof.
  intros Hne. unfold run, applyLikeState.
  destruct liked, (includes (likedPostIds s) postId); simpl; try tauto.
  - rewrite in_app_iff. simpl. split; [intros [H|[H|[]]]; [exact H|congruence]|tauto].
  - rewrite In_remove_id. tauto.
Qed.

End StoreFacts.

(* ------------------------------------------------------------------ *)
(** ** The optimistic reconciler *)

Import Store StoreFacts Hook.

(** C1 (as the code does it). When the remote mutation rejects:
    [toggleLike] re-throws the error and restores the like membership of
    every id to what it was before the call; when the post was not liked
    before, the whole store is exactly as before, and when it was liked,
    the id is back in the list (possibly at another position).
    [hidePost] re-throws the error and leaves the store exactly as before
    the call: the post is removed from the hidden list only when the call
    had added it, and stays there when it was already hidden. *)
Theorem rejected_mutation_rolls_back (postId postAuthorId e : string)
  (s : SettingsState) :
  currentUserId s <> "" ->
  (let '(s', c) := Hook.toggleLike postId (Rejected e) s in
   c = Rethrow e /\
   currentUserId s' = currentUserId s /\
   hiddenPostIds s' = hiddenPostIds s /\
   (In postId (likedPostIds s') <-> In postId (likedPostIds s)) /\
   (forall x, In x (likedPostIds s') <-> In x (likedPostIds s)) /\
   (~ In postId (likedPostIds s) -> s' = s)) /\
  (currentUserId s <> postAuthorId ->
   Hook.hidePost postId postAuthorId (Rejected e) s = (s, Rethrow e)).
Proof.
  intros Hauth. destruct s as [uid liked hidden]. simpl in Hauth.
  split.
  - unfold Hook.toggleLike, toggleLike_begin. simpl.
    apply String.eqb_neq in Hauth. rewrite Hauth.
    unfold toggleLike_settle, run, Store.toggleLike, applyLikeState. simpl.
    destruct (includes liked postId) eqn:E; simpl.
    + apply includes_In in E.
      assert (Hr : includes (remove_id liked postId) postId = false).
      { apply includes_false. rewrite In_remove_id. tauto. }
      rewrite Hr. simpl.
      assert (Hx : forall x, In x (remove_id liked postId ++ [postId]) <-> In x liked).
      { intros x. rewrite in_app_iff, In_remove_id. simpl.
        split; [intros [[H _]|[<-|[]]]; assumption|].
        intros H. destruct (String.eqb_spec x postId) as [->|Hne]; [right; left; reflexivity|].
        left. split; assumption. }
      repeat split; try reflexivity; try (apply Hx); try tauto.
    + apply includes_false in E.
      assert (Hr : includes (liked ++ [postId]) postId = true).
      { apply includes_In. apply in_or_app. right. left. reflexivity. }
      rewrite Hr. simpl.
      rewrite remove_id_app_single, (remove_id_absent _ _ E).
      repeat split; tauto.
  - intros Hne. simpl in Hne. unfold Hook.hidePost, hidePost_begin. simpl.
    apply String.eqb_neq in Hauth. apply String.eqb_neq in Hne.
    rewrite Hauth, Hne.
    unfold hidePost_settle, run, Store.hidePost, unhidePost. simpl.
    destruct (includes hidden postId) eqn:E; simpl; [reflexivity|].
    apply includes_false in E.
    assert (Hr : includes (hidden ++ [postId]) postId = true).
    { apply includes_In. apply in_or_app. right. left. reflexivity. }
    rewrite Hr. simpl.
    rewrite remove_id_app_single, (remove_id_absent _ _ E). reflexivity.
Qed.

Lemma rejected_mutation_rolls_back_witness :
  "u3" <> "" /\ "u3" <> "a1" /\
  Hook.hidePost "p8" "a1" (Rejected "NetworkError") (mkState "u3" ["p8"] []) =
    (mkState "u3" ["p8"] [], Rethrow "NetworkError").
Proof.
  split; [discriminate|]. split; [discriminate|].
  apply (proj2 (rejected_mutation_rolls_back "p8" "a1" "NetworkError"
                  (mkState "u3" ["p8"] []) ltac:(discriminate)) ltac:(discriminate)).
Defined.

(** C1 as stated fails: with the like list [["p1"; "p2"]] and hidden list
    [["p1"]], a rejected [toggleLike "p1"] ends with [["p2"; "p1"]] (not the
    list it started from), and a rejected [hidePost "p1"] leaves ["p1"] in
    the hidden list. *)
Lemma rejected_mutation_rolls_back_counterexample :
  let s := mkState "u" ["p1"; "p2"] ["p1"] in
  likedPostIds (fst (Hook.toggleLike "p1" (Rejected "NetworkError") s))
    <> likedPostIds s /\
  In "p1" (hiddenPostIds (fst (Hook.hidePost "p1" "a" (Rejected "NetworkError") s))).
Proof.
  simpl. split.
  - discriminate.
  - left. reflexivity.
Qed.

(** C2. However the store changed while the mutation was in flight, when it
    resolves with [{liked; likeCount}] the post is in the like list exactly
    when [liked] is true, and the result is returned. *)
Theorem resolved_like_overwrites (postId : string) (wasLiked : bool)
  (result : Hook.LikeResult) (s : SettingsState) :
  let '(s', c) := toggleLike_settle postId wasLiked (Resolved result) s in
  (In postId (likedPostIds s') <-> Hook.liked result = true) /\ c = Return result.
Proof.
  simpl. split; [apply applyLikeState_member|reflexivity].
Qed.

(** C4. A signed-in viewer toggling a post not yet liked: the synchronous
    part of [toggleLike] ends by issuing the mutation call, and the store at
    that point already has the post in its like list. *)
Theorem speculative_like_before_call (postId : string) (s : SettingsState) :
  currentUserId s <> "" ->
  ~ In postId (likedPostIds s) ->
  let '(s1, st) := toggleLike_begin postId s in
  st = Call postId (currentUserId s) false /\ In postId (likedPostIds s1).
Proof.
  intros Hauth Hn. unfold toggleLike_begin.
  apply String.eqb_neq in Hauth. rewrite Hauth.
  apply includes_false in Hn as E. rewrite E.
  unfold run, Store.toggleLike. rewrite E. simpl.
  split; [reflexivity|]. apply in_or_app. right. left. reflexivity.
Qed.

Lemma speculative_like_before_call_witness :
  "u2" <> "" /\ ~ In "p7" [] /\
  (let '(s1, st) := toggleLike_begin "p7" (mkState "u2" [] []) in
   st = Call "p7" "u2" false /\ In "p7" (likedPostIds s1)).
Proof.
  split; [discriminate|]. split; [intros []|].
  exact (speculative_like_before_call "p7" (mkState "u2" [] [])
           ltac:(simpl; discriminate) ltac:(simpl; intros [])).
Defined.

(** C5. With no viewer id (the empty string, falsy in [!currentUserId]),
    both handlers throw the sign-in error in their synchronous part: no
    mutation call is issued and the store is untouched, whatever the
    remote side would have answered. *)
Theorem unauthenticated_fails_fast (postId postAuthorId : string)
  (ol : outcome Hook.LikeResult) (oh : outcome Hook.HideResult) (s : SettingsState) :
  currentUserId s = "" ->
  toggleLike_begin postId s = (s, Throw signInToLike) /\
  Hook.toggleLike postId ol s = (s, Rethrow signInToLike) /\
  hidePost_begin postId postAuthorId s = (s, Throw signInToHide) /\
  Hook.hidePost postId postAuthorId oh s = (s, Rethrow signInToHide).
Proof.
  intros H. unfold Hook.toggleLike, Hook.hidePost, toggleLike_begin, hidePost_begin.
  rewrite H. simpl. repeat split.
Qed.

Lemma unauthenticated_fails_fast_witness :
  Hook.toggleLike "p1" (Resolved (Hook.mkLikeResult true 1)) (mkState "" [] []) =
    (mkState "" [] [], Rethrow signInToLike).
Proof.
  exact (proj1 (proj2 (unauthenticated_fails_fast "p1" "u1"
    (Resolved (Hook.mkLikeResult true 1)) (Rejected "x") (mkState "" [] []) eq_refl))).
Defined.

(** C6. For a signed-in viewer (a non-empty id) whose id is the post's
    author id, [hidePost] throws "You cannot hide your own post." in its
    synchronous part, before any speculative update and with no mutation
    call, the store (and so the hidden list) untouched. On the server,
    [hidePost] on an existing post whose [authorId] is the calling [userId]
    throws the same error (so writes nothing). *)
Theorem self_hide_rejected (postId : string) (oh : outcome Hook.HideResult)
  (s : SettingsState) (db : Server.DB) (pid : nat) (p : Server.Post) (now : nat) :
  currentUserId s <> "" ->
  (hidePost_begin postId (currentUserId s) s = (s, Throw cannotHideOwn) /\
   Hook.hidePost postId (currentUserId s) oh s = (s, Rethrow cannotHideOwn)) /\
  (find (fun q => Nat.eqb (Server.p_id q) pid) (Server.posts db) = Some p ->
   Server.hidePost pid (Server.authorId p) now db = Server.Err Server.cannotHideOwn).
Proof.
  intros Hauth. split.
  - unfold Hook.hidePost, hidePost_begin.
    apply String.eqb_neq in Hauth as E. rewrite E, String.eqb_refl. split; reflexivity.
  - intros Hp. unfold Server.hidePost, Server.bind, Server.db_get.
    rewrite Hp, String.eqb_refl. reflexivity.
Qed.

Lemma self_hide_rejected_witness :
  Hook.hidePost "p1" "u1" (Rejected "x") (mkState "u1" [] []) =
    (mkState "u1" [] [], Rethrow cannotHideOwn) /\
  Server.hidePost 0 "u1" 5 (Server.mkDB [Server.mkPost 0 "u1" 0] [] [] 1) =
    Server.Err Server.cannotHideOwn.
Proof.
  pose proof (self_hide_rejected "p1" (Rejected "x") (mkState "u1" [] [])
                (Server.mkDB [Server.mkPost 0 "u1" 0] [] [] 1) 0
                (Server.mkPost 0 "u1" 0) 5 ltac:(simpl; discriminate)) as [[_ H1] H2].
  split; [exact H1|]. exact (H2 eq_refl).
Defined.

(** C8. Applying [applyLikeState postId liked] a second time returns the
    state itself (zustand then notifies no one), so the like list is that
    of the first application; and whenever [liked] already is the current
    membership of [postId], the first application is such a no-op too. *)
Theorem applyLikeState_idempotent (postId : string) (liked : bool) (s : SettingsState) :
  let s1 := run (applyLikeState postId liked) s in
  commit s1 (applyLikeState postId liked s1) = (s1, false) /\
  likedPostIds (run (applyLikeState postId liked) s1) = likedPostIds s1 /\
  commit s (applyLikeState postId (includes (likedPostIds s) postId) s) = (s, false).
Proof.
  cbv zeta.
  assert (Hk : forall s0, applyLikeState postId (includes (likedPostIds s0) postId) s0 = Keep).
  { intros s0. unfold applyLikeState. destruct (includes (likedPostIds s0) postId); reflexivity. }
  assert (H1 : includes (likedPostIds (run (applyLikeState postId liked) s)) postId = liked).
  { destruct (includes _ postId) eqn:E, liked; try reflexivity.
    - apply includes_In, applyLikeState_member in E. discriminate.
    - apply includes_false in E. exfalso. apply E. apply applyLikeState_member. reflexivity. }
  pose proof (Hk (run (applyLikeState postId liked) s)) as H2. rewrite H1 in H2.
  set (s1 := run (applyLikeState postId liked) s) in *.
  split; [rewrite H2; reflexivity|]. split.
  - unfold run. rewrite H2. reflexivity.
  - rewrite Hk. reflexivity.
Qed.

(** C9. Every store action keeps both lists duplicate-free, and the two
    full-replace setters produce a duplicate-free list with the same ids as
    their input, whatever it is. *)
Theorem store_actions_keep_nodup (postId : string) (liked : bool) (ids : list string)
  (s : SettingsState) :
  (nodup_state s ->
   nodup_state (run (setLikedPostIds ids) s) /\
   nodup_state (run (setHiddenPostIds ids) s) /\
   nodup_state (run (applyLikeState postId liked) s) /\
   nodup_state (run (Store.toggleLike postId) s) /\
   nodup_state (run (Store.hidePost postId) s) /\
   nodup_state (run (unhidePost postId) s)) /\
  NoDup (likedPostIds (run (setLikedPostIds ids) s)) /\
  NoDup (hiddenPostIds (run (setHiddenPostIds ids) s)) /\
  (forall x, In x (likedPostIds (run (setLikedPostIds ids) s)) <-> In x ids) /\
  (forall x, In x (hiddenPostIds (run (setHiddenPostIds ids) s)) <-> In x ids).
Proof.
  assert (Hd : NoDup (array_from_set ids)) by (apply dedup_acc_NoDup; constructor).
  assert (Hi : forall x, In x (array_from_set ids) <-> In x ids).
  { intros x. unfold array_from_set. rewrite dedup_acc_In. simpl. tauto. }
  destruct s as [uid l h]. unfold nodup_state, run. simpl.
  split; [|repeat split; auto; apply Hi].
  intros [Hl Hh].
  unfold setLikedPostIds, setHiddenPostIds, applyLikeState, Store.toggleLike,
    Store.hidePost, unhidePost; simpl.
  destruct liked, (includes l postId) eqn:El, (includes h postId) eqn:Eh; simpl;
    repeat split; auto using NoDup_remove_id;
    apply NoDup_snoc; auto; apply includes_false; assumption.
Qed.

Lemma store_actions_keep_nodup_witness :
  nodup_state (run (Store.toggleLike "p2") (mkState "u" ["p1"] ["p3"])).
Proof.
  apply (store_actions_keep_nodup "p2" true [] (mkState "u" ["p1"] ["p3"])).
  split; simpl; repeat constructor; simpl; tauto.
Defined.

(* ------------------------------------------------------------------ *)
(** ** Facts about the Convex model *)

Module ServerFacts.
Import Server.

Lemma filter_all_true {A} (l : list A) : filter (fun _ => true) l = l.
Proof. induction l as [|x l IH]; simpl; [reflexivity|]. rewrite IH. reflexivity. Qed.

Lemma filter_filter_and {A} (f g : A -> bool) (l : list A) :
  filter f (filter g l) = filter (fun x => g x && f x) l.
Proof.
  induction l as [|x l IH]; simpl; [reflexivity|].
  destruct (g x); simpl; destruct (f x); simpl; rewrite IH; reflexivity.
Qed.

Lemma filter_filter_length {A} (f g : A -> bool) (l : list A) :
  length (filter f (filter g l)) <= length (filter f l).
Proof.
  induction l as [|x l IH]; simpl; [lia|].
  destruct (g x), (f x) eqn:E; simpl; rewrite ?E; simpl; lia.
Qed.

Lemma find_app {A} (f : A -> bool) (l1 l2 : list A) :
  find f (l1 ++ l2) = match find f l1 with Some x => Some x | None => find f l2 end.
Proof.
  induction l1 as [|x l1 IH]; simpl; [reflexivity|].
  destruct (f x); [reflexivity|exact IH].
Qed.

Lemma find_filter_other (ps : list Post) (k id : nat) :
  k <> id ->
  find (fun q => Nat.eqb (p_id q) k) (filter (fun q => negb (Nat.eqb (p_id q) id)) ps) =
  find (fun q => Nat.eqb (p_id q) k) ps.
Proof.
  intros Hne. induction ps as [|q ps IH]; simpl; [reflexivity|].
  destruct (Nat.eqb_spec (p_id q) id) as [Hq|Hq]; simpl.
  - assert (E : Nat.eqb (p_id q) k = false) by (apply Nat.eqb_neq; lia).
    rewrite E. exact IH.
  - destruct (Nat.eqb (p_id q) k); [reflexivity|exact IH].
Qed.

Lemma find_patch (ps : list Post) (k pid n : nat) :
  find (fun q => Nat.eqb (p_id q) k) (map (patch_likeCount pid n) ps) =
  option_map (patch_likeCount pid n) (find (fun q => Nat.eqb (p_id q) k) ps).
Proof.
  induction ps as [|q ps IH]; simpl; [reflexivity|]. unfold patch_likeCount at 1 3.
  destruct (Nat.eqb (p_id q) pid) eqn:E; simpl;
    (destruct (Nat.eqb (p_id q) k); [simpl; unfold patch_likeCount; rewrite E; reflexivity|exact IH]).
Qed.

Lemma rows_set_rows (t : table) (rs : list Row) (db : DB) :
  rows t (set_rows t rs db) = rs.
Proof. destruct t; reflexivity. Qed.

Lemma set_rows_twice (t : table) (rs rs' : list Row) (db : DB) :
  set_rows t rs' (set_rows t rs db) = set_rows t rs' db.
Proof. destruct t; reflexivity. Qed.

Lemma set_rows_same (t : table) (db : DB) : set_rows t (rows t db) db = db.
Proof. destruct t, db; reflexivity. Qed.

(** Deleting the documents of a query, one by one, filters the table. *)
Lemma delete_all_rows (t : table) (rs : list Row) (db : DB) :
  delete_all t rs db = Ok tt (set_rows t (filter (not_in_ids rs) (rows t db)) db).
Proof.
  revert db. induction rs as [|d rs IH]; intros db; simpl.
  - rewrite filter_all_true, set_rows_same. reflexivity.
  - unfold bind, db_delete. rewrite IH, rows_set_rows, set_rows_twice, filter_filter_and.
    reflexivity.
Qed.

Lemma filter_single {A} (f : A -> bool) (l : list A) (r x : A) :
  filter f l = [r] -> In x l -> f x = true -> x = r.
Proof.
  intros Hf Hx Hfx. assert (H : In x (filter f l)) by (apply filter_In; auto).
  rewrite Hf in H. destruct H as [H|[]]. symmetry. exact H.
Qed.

Lemma filter_nil_existsb {A} (f : A -> bool) (l : list A) :
  filter f l = [] <-> existsb f l = false.
Proof.
  induction l as [|x l IH]; simpl; [tauto|].
  destruct (f x); simpl; [split; discriminate|exact IH].
Qed.

Lemma match_post_user_true (pid pid' : nat) (uid uid' : string) (id now : nat) :
  match_post_user pid' uid' (mkRow id pid uid now) = true -> pid' = pid /\ uid' = uid.
Proof.
  unfold match_post_user. simpl. intros H. apply andb_true_iff in H as [H1 H2].
  apply Nat.eqb_eq in H1. apply String.eqb_eq in H2. auto.
Qed.

Lemma at_most_one_snoc (l : list Row) (pid : nat) (uid : string) (id now : nat) :
  (forall p u, length (filter (match_post_user p u) l) <= 1) ->
  filter (match_post_user pid uid) l = [] ->
  forall p u, length (filter (match_post_user p u) (l ++ [mkRow id pid uid now])) <= 1.
Proof.
  intros Hl Hnil p u. rewrite filter_app, length_app. simpl.
  destruct (match_post_user p u (mkRow id pid uid now)) eqn:E; simpl.
  - apply match_post_user_true in E as [-> ->]. rewrite Hnil. simpl. lia.
  - specialize (Hl p u). lia.
Qed.

Lemma at_most_one_filter (l : list Row) (g : Row -> bool) :
  (forall p u, length (filter (match_post_user p u) l) <= 1) ->
  forall p u, length (filter (match_post_user p u) (filter g l)) <= 1.
Proof.
  intros Hl p u. pose proof (filter_filter_length (match_post_user p u) g l).
  specialize (Hl p u). lia.
Qed.


Lemma toggleLike_eq (pid : nat) (uid : string) (now : nat) (db : DB) :
  toggleLike pid uid now db =
  match find (fun q => Nat.eqb (p_id q) pid) (posts db) with
  | None => Err postNotFound
  | Some _ =>
      match filter (match_post_user pid uid) (postLikes db) with
      | [] =>
          let likes := postLikes db ++ [mkRow (nextId db) pid uid now] in
          Ok (mkLikeResult true (count_for pid likes))
             (mkDB (map (patch_likeCount pid (count_for pid likes)) (posts db))
                   likes (hiddenPosts db) (S (nextId db)))
      | [r] =>
          let likes := filter (fun x => negb (Nat.eqb (r_id x) (r_id r))) (postLikes db) in
          Ok (mkLikeResult false (count_for pid likes))
             (mkDB (map (patch_likeCount pid (count_for pid likes)) (posts db))
                   likes (hiddenPosts db) (nextId db))
      | _ => Err "unique() query returned more than one result"
      end
  end.
Proof.
  unfold toggleLike, bind, ret, throw, db_get, query_by_post_user, query_by_post,
    unique, db_insert, db_delete, db_patch_likeCount. simpl.
  destruct (find _ (posts db)); [|reflexivity].
  destruct (filter (match_post_user pid uid) (postLikes db)) as [|r [|r2 rest]]; reflexivity.
Qed.

Lemma hidePost_eq (pid : nat) (uid : string) (now : nat) (db : DB) :
  hidePost pid uid now db =
  match find (fun q => Nat.eqb (p_id q) pid) (posts db) with
  | None => Err postNotFound
  | Some p =>
      if String.eqb (authorId p) uid then Err cannotHideOwn
      else
        match filter (match_post_user pid uid) (hiddenPosts db) with
        | [] =>
            Ok (mkHideResult true)
               (mkDB (posts db) (postLikes db)
                     (hiddenPosts db ++ [mkRow (nextId db) pid uid now]) (S (nextId db)))
        | [_] => Ok (mkHideResult true) db
        | _ => Err "unique() query returned more than one result"
        end
  end.
Proof.
  unfold hidePost, bind, ret, throw, db_get, query_by_post_user, unique, db_insert. simpl.
  destruct (find _ (posts db)) as [p|]; [|reflexivity].
  destruct (String.eqb (authorId p) uid); [reflexivity|].
  destruct (filter (match_post_user pid uid) (hiddenPosts db)) as [|r [|r2 rest]]; reflexivity.
Qed.

Lemma unhidePost_eq (pid : nat) (uid : string) (db : DB) :
  unhidePost pid uid db =
  match filter (match_post_user pid uid) (hiddenPosts db) with
  | [] => Ok (mkHideResult false) db
  | [r] =>
      Ok (mkHideResult false)
         (mkDB (posts db) (postLikes db)
               (filter (fun x => negb (Nat.eqb (r_id x) (r_id r))) (hiddenPosts db))
               (nextId db))
  | _ => Err "unique() query returned more than one result"
  end.
Proof.
  unfold unhidePost, bind, ret, throw, query_by_post_user, unique, db_delete. simpl.
  destruct (filter (match_post_user pid uid) (hiddenPosts db)) as [|r [|r2 rest]]; reflexivity.
Qed.


Lemma deletePost_eq (id : nat) (req : string) (db : DB) :
  deletePost id req db =
  match find (fun q => Nat.eqb (p_id q) id) (posts db) with
  | None => Err postNotFound
  | Some p =>
      if negb (String.eqb (authorId p) req)
      then Err "You can only delete your own post."
      else
        Ok tt (mkDB (filter (fun q => negb (Nat.eqb (p_id q) id)) (posts db))
                 (filter (not_in_ids (filter (fun r => Nat.eqb (postId r) id) (postLikes db)))
                         (postLikes db))
                 (filter (not_in_ids (filter (fun r => Nat.eqb (postId r) id) (hiddenPosts db)))
                         (hiddenPosts db))
                 (nextId db))
  end.
Proof.
  unfold deletePost, bind at 1, ret, throw, db_get. simpl.
  destruct (find _ (posts db)) as [p|]; [|reflexivity].
  destruct (negb (String.eqb (authorId p) req)); [reflexivity|].
  unfold bind, query_by_post. rewrite delete_all_rows. simpl.
  rewrite delete_all_rows. reflexivity.
Qed.

(** Rewriting [find] on the posts after [toggleLike]'s patch. *)
Lemma patch_keeps_author (pid n : nat) (p : Post) :
  authorId (patch_likeCount pid n p) = authorId p.
Proof. unfold patch_likeCount. destruct (Nat.eqb (p_id p) pid); reflexivity. Qed.

Lemma WF_hidden_patch (pid n : nat) (ps : list Post) (hidden : list Row) :
  (forall r, In r hidden ->
     exists p, find (fun q => Nat.eqb (p_id q) (postId r)) ps = Some p /\ authorId p <> userId r) ->
  (forall r, In r hidden ->
     exists p, find (fun q => Nat.eqb (p_id q) (postId r)) (map (patch_likeCount pid n) ps) = Some p
               /\ authorId p <> userId r).
Proof.
  intros Hc r Hr. destruct (Hc r Hr) as [p [Hf Ha]].
  exists (patch_likeCount pid n p). rewrite find_patch, Hf. split; [reflexivity|].
  rewrite patch_keeps_author. exact Ha.
Qed.

Lemma not_in_ids_self (rs : list Row) (r : Row) :
  In r rs -> not_in_ids rs r = false.
Proof.
  intros Hr. unfold not_in_ids. destruct (forallb _ rs) eqn:E; [|reflexivity].
  rewrite forallb_forall in E. specialize (E r Hr). rewrite Nat.eqb_refl in E. discriminate.
Qed.

Lemma WF_empty : WF db_empty.
Proof. unfold WF. simpl. repeat split; [lia|lia|]. intros r []. Qed.

Lemma exec_WF (db : DB) (c : call) : WF db -> WF (exec db c).
Proof.
  intros [Ha [Hb Hc]].
  destruct c as [a lc | id req | pid uid now | pid uid now | pid uid]; simpl; unfold commit.
  - (* create *)
    unfold create, db_insert_post. unfold WF. simpl. split; [exact Ha|]. split; [exact Hb|].
    intros r Hr. destruct (Hc r Hr) as [p [Hf Hn]]. exists p.
    rewrite find_app, Hf. auto.
  - (* deletePost *)
    rewrite deletePost_eq. destruct (find _ (posts db)) as [p|]; [|split; auto].
    destruct (negb _); [split; auto|]. unfold WF. simpl.
    split; [apply at_most_one_filter; exact Ha|].
    split; [apply at_most_one_filter; exact Hb|].
    intros r Hr. apply filter_In in Hr as [Hr Hn].
    destruct (Hc r Hr) as [p' [Hf Ha']]. exists p'. split; [|exact Ha'].
    rewrite find_filter_other; [exact Hf|].
    intros Heq. rewrite not_in_ids_self in Hn; [discriminate|].
    apply filter_In. split; [exact Hr|]. apply Nat.eqb_eq. exact Heq.
  - (* toggleLike *)
    rewrite toggleLike_eq. destruct (find _ (posts db)) as [p|]; [|split; auto].
    destruct (filter (match_post_user pid uid) (postLikes db)) as [|r [|r2 rest]] eqn:Ef;
      [| |split; auto]; unfold WF; simpl.
    + split; [apply at_most_one_snoc; assumption|].
      split; [exact Hb|]. apply WF_hidden_patch. exact Hc.
    + split; [apply at_most_one_filter; exact Ha|].
      split; [exact Hb|]. apply WF_hidden_patch. exact Hc.
  - (* hidePost *)
    rewrite hidePost_eq. destruct (find _ (posts db)) as [p|] eqn:Ep; [|split; auto].
    destruct (String.eqb (authorId p) uid) eqn:Eau; [split; auto|].
    destruct (filter (match_post_user pid uid) (hiddenPosts db)) as [|r [|r2 rest]] eqn:Ef;
      [| split; auto | split; auto]. unfold WF; simpl.
    split; [exact Ha|]. split; [apply at_most_one_snoc; assumption|].
    intros r Hr. apply in_app_iff in Hr as [Hr|[<-|[]]]; [apply Hc; exact Hr|].
    exists p. simpl. split; [exact Ep|]. apply String.eqb_neq. exact Eau.
  - (* unhidePost *)
    rewrite unhidePost_eq.
    destruct (filter (match_post_user pid uid) (hiddenPosts db)) as [|r [|r2 rest]] eqn:Ef;
      [split; auto| |split; auto]. unfold WF; simpl.
    split; [exact Ha|]. split; [apply at_most_one_filter; exact Hb|].
    intros r' Hr. apply filter_In in Hr as [Hr _]. apply Hc. exact Hr.
Qed.

Lemma run_trace_WF (tr : list call) : WF (run_trace tr).
Proof.
  unfold run_trace. generalize WF_empty. generalize db_empty.
  induction tr as [|c tr IH]; intros db Hdb; simpl; [exact Hdb|].
  apply IH. apply exec_WF. exact Hdb.
Qed.

(** Deleting, by id, the one document a query matched leaves no match. *)
Lemma delete_matched_gone (f : Row -> bool) (l : list Row) (r : Row) :
  filter f l = [r] ->
  existsb f (filter (fun x => negb (Nat.eqb (r_id x) (r_id r))) l) = false.
Proof.
  intros Hf. apply filter_nil_existsb.
  destruct (filter f (filter _ l)) as [|x rest] eqn:E; [reflexivity|exfalso].
  assert (Hx : In x (filter f (filter (fun x => negb (Nat.eqb (r_id x) (r_id r))) l)))
    by (rewrite E; left; reflexivity).
  apply filter_In in Hx as [Hx Hfx]. apply filter_In in Hx as [Hx Hg].
  rewrite (filter_single f l r x Hf Hx Hfx), Nat.eqb_refl in Hg. discriminate.
Qed.

Lemma existsb_single (f : Row -> bool) (l : list Row) (r : Row) :
  filter f l = [r] -> existsb f l = true.
Proof.
  intros Hf. destruct (existsb f l) eqn:E; [reflexivity|].
  apply filter_nil_existsb in E. congruence.
Qed.

Lemma match_post_user_new (pid : nat) (uid : string) (id now : nat) :
  match_post_user pid uid (mkRow id pid uid now) = true.
Proof. unfold match_post_user. simpl. rewrite Nat.eqb_refl, String.eqb_refl. reflexivity. Qed.

End ServerFacts.

(* ------------------------------------------------------------------ *)
(** ** The Convex mutations *)

Import Server ServerFacts.

(** C3. On any database the mutations can produce: if the post does not
    exist, [toggleLike] throws "Post not found"; otherwise it succeeds,
    returns [liked = true] exactly when no [(postId, userId)] like document
    existed, leaves such a document exactly when [liked] is true, returns as
    [likeCount] the number of like documents of the post afterwards, and
    writes that number into the post's [likeCount]. *)
Theorem server_toggleLike_authoritative (tr : list call) (pid : nat) (uid : string)
  (now : nat) :
  let db := run_trace tr in
  (find (fun q => Nat.eqb (p_id q) pid) (posts db) = None ->
   Server.toggleLike pid uid now db = Err postNotFound) /\
  (forall p, find (fun q => Nat.eqb (p_id q) pid) (posts db) = Some p ->
   exists r db', Server.toggleLike pid uid now db = Ok r db' /\
     Server.liked r = negb (existsb (match_post_user pid uid) (postLikes db)) /\
     existsb (match_post_user pid uid) (postLikes db') = Server.liked r /\
     resLikeCount r = count_for pid (postLikes db') /\
     find (fun q => Nat.eqb (p_id q) pid) (posts db') =
       Some (mkPost (p_id p) (authorId p) (resLikeCount r))).
Proof.
  cbv zeta. pose proof (run_trace_WF tr) as [Ha _].
  set (db := run_trace tr) in *. split.
  - intros Hn. rewrite toggleLike_eq, Hn. reflexivity.
  - intros p Hp. rewrite toggleLike_eq, Hp.
    pose proof (find_some _ _ Hp) as [_ Hpid]. apply Nat.eqb_eq in Hpid.
    specialize (Ha pid uid).
    destruct (filter (match_post_user pid uid) (postLikes db)) as [|r [|r2 rest]] eqn:Ef;
      [| | simpl in Ha; lia]; eexists _, _; (split; [reflexivity|]); simpl;
      rewrite find_patch, Hp; simpl; unfold patch_likeCount; rewrite Hpid, Nat.eqb_refl.
    + apply filter_nil_existsb in Ef. rewrite Ef, existsb_app. simpl.
      rewrite match_post_user_new, orb_true_r. repeat split.
    + rewrite (existsb_single _ _ _ Ef), (delete_matched_gone _ _ _ Ef). repeat split.
Qed.

Lemma server_toggleLike_authoritative_witness :
  Server.toggleLike 0 "u" 5 (run_trace [CCreate "a" None]) =
    Ok (Server.mkLikeResult true 1)
       (mkDB [mkPost 0 "a" 1] [mkRow 1 0 "u" 5] [] 2).
Proof.
  destruct (proj2 (server_toggleLike_authoritative [CCreate "a" None] 0 "u" 5)
              (mkPost 0 "a" 0) eq_refl) as [r [db' [H _]]].
  rewrite H. vm_compute in H. symmetry. exact H.
Defined.

(** C7. On any database the mutations can produce, when a [(postId,
    userId)] hidden document exists, [hidePost] returns [{hidden: true}]
    and writes nothing. On any database at all, running [hidePost] a second
    time (at any later [Date.now()]) leaves the database as the first run
    left it. *)
Theorem server_hidePost_idempotent (tr : list call) (pid : nat) (uid : string)
  (now : nat) :
  (existsb (match_post_user pid uid) (hiddenPosts (run_trace tr)) = true ->
   Server.hidePost pid uid now (run_trace tr) = Ok (mkHideResult true) (run_trace tr)) /\
  (forall (db : DB) (now' : nat),
   Server.commit (Server.hidePost pid uid now') (Server.commit (Server.hidePost pid uid now) db) =
   Server.commit (Server.hidePost pid uid now) db).
Proof.
  split.
  - pose proof (run_trace_WF tr) as [_ [Hb Hc]].
    set (db := run_trace tr) in *. intros Hex.
    apply existsb_exists in Hex as [r [Hr Hm]].
    pose proof Hm as Hm'. unfold match_post_user in Hm'.
    apply andb_true_iff in Hm' as [Hp Hu].
    apply Nat.eqb_eq in Hp. apply String.eqb_eq in Hu. subst pid uid.
    destruct (Hc r Hr) as [p [Hf Hau]].
    rewrite hidePost_eq, Hf. apply String.eqb_neq in Hau. rewrite Hau.
    specialize (Hb (postId r) (userId r)).
    destruct (filter (match_post_user (postId r) (userId r)) (hiddenPosts db))
      as [|x [|x2 rest]] eqn:Ef; [| reflexivity | simpl in Hb; lia].
    assert (Hin : In r (filter (match_post_user (postId r) (userId r)) (hiddenPosts db)))
      by (apply filter_In; auto).
    rewrite Ef in Hin. destruct Hin.
  - intros db now'. unfold Server.commit.
    rewrite (hidePost_eq pid uid now db).
    destruct (find _ (posts db)) as [p|] eqn:Ep;
      [|rewrite hidePost_eq, Ep; reflexivity].
    destruct (String.eqb (authorId p) uid) eqn:Eau;
      [rewrite hidePost_eq, Ep, Eau; reflexivity|].
    destruct (filter (match_post_user pid uid) (hiddenPosts db)) as [|x [|x2 rest]] eqn:Ef;
      rewrite hidePost_eq; simpl; rewrite Ep, Eau; try (rewrite Ef; reflexivity).
    rewrite filter_app, Ef. simpl. rewrite match_post_user_new. reflexivity.
Qed.

Lemma server_hidePost_idempotent_witness :
  let db := run_trace [CCreate "a" None; CHidePost 0 "u" 5] in
  Server.hidePost 0 "u" 9 db = Ok (mkHideResult true) db.
Proof.
  exact (proj1 (server_hidePost_idempotent [CCreate "a" None; CHidePost 0 "u" 5] 0 "u" 9)
           eq_refl).
Defined.

(** C10. On any database the mutations can produce, whether or not the
    post exists, [unhidePost] succeeds with [{hidden: false}], after it no
    [(postId, userId)] hidden document remains, it writes nothing when there
    was none, it touches neither posts nor likes, and running it again
    writes nothing and returns [{hidden: false}] again. *)
Theorem server_unhidePost_spec (tr : list call) (pid : nat) (uid : string) :
  let db := run_trace tr in
  exists db', Server.unhidePost pid uid db = Ok (mkHideResult false) db' /\
    existsb (match_post_user pid uid) (hiddenPosts db') = false /\
    (existsb (match_post_user pid uid) (hiddenPosts db) = false -> db' = db) /\
    posts db' = posts db /\ postLikes db' = postLikes db /\
    Server.unhidePost pid uid db' = Ok (mkHideResult false) db'.
Proof.
  cbv zeta. pose proof (run_trace_WF tr) as [_ [Hb _]].
  set (db := run_trace tr) in *. specialize (Hb pid uid).
  rewrite unhidePost_eq.
  destruct (filter (match_post_user pid uid) (hiddenPosts db)) as [|r [|r2 rest]] eqn:Ef;
    [| | simpl in Hb; lia]; eexists; (split; [reflexivity|]).
  - apply filter_nil_existsb in Ef as Ex. rewrite Ex.
    repeat split. rewrite unhidePost_eq, Ef. reflexivity.
  - simpl. rewrite (existsb_single _ _ _ Ef), (delete_matched_gone _ _ _ Ef).
    repeat split; [discriminate|].
    rewrite unhidePost_eq. simpl.
    pose proof (delete_matched_gone _ _ _ Ef) as E0. apply filter_nil_existsb in E0.
    rewrite E0.
    reflexivity.
Qed.

Lemma server_unhidePost_spec_witness :
  let db := run_trace [CCreate "a" None; CHidePost 0 "u" 5; CDeletePost 0 "a"] in
  Server.unhidePost 0 "u" db = Ok (mkHideResult false) db.
Proof.
  destruct (server_unhidePost_spec [CCreate "a" None; CHidePost 0 "u" 5; CDeletePost 0 "a"]
              0 "u") as [db' [H1 [_ [H3 _]]]].
  cbv zeta. rewrite H1. f_equal. apply H3. reflexivity.
Defined.

(* ------------------------------------------------------------------ *)
(** ** More of the store and feed *)

Module ExtraFacts.

Lemma filter_all {A} (f : A -> bool) (l : list A) :
  (forall x, In x l -> f x = true) -> filter f l = l.
Proof.
  induction l as [|x l IH]; intros H; simpl; [reflexivity|].
  rewrite (H x (or_introl eq_refl)), IH; [reflexivity|].
  intros y Hy. apply H. right. exact Hy.
Qed.

Lemma In_firstn {A} (n : nat) (l : list A) (x : A) : In x (firstn n l) -> In x l.
Proof.
  intros H. rewrite <- (firstn_skipn n l). apply in_or_app. left. exact H.
Qed.

Lemma NoDup_firstn {A} (n : nat) (l : list A) : NoDup l -> NoDup (firstn n l).
Proof.
  intros H. rewrite <- (firstn_skipn n l) in H. apply NoDup_app_remove_r in H. exact H.
Qed.

Lemma filter_neq_In (l : list string) (v x : string) :
  In x (filter (fun item => negb (String.eqb item v)) l) -> x <> v /\ In x l.
Proof.
  intros H. apply filter_In in H as [H1 H2].
  apply negb_true_iff, String.eqb_neq in H2. auto.
Qed.

End ExtraFacts.

Import ExtraFacts.

(** [addRecentSearch]: a term that trims to the empty string changes
    nothing; otherwise the trimmed term becomes the first entry, the list
    has at most 6 entries, every other entry was already there, and a
    duplicate-free list stays duplicate-free. *)
Theorem addRecentSearch_front (term : string) (recent : list string) :
  (Text.trim term = "" -> Searches.run_add term recent = recent) /\
  (Text.trim term <> "" ->
   hd_error (Searches.run_add term recent) = Some (Text.trim term) /\
   length (Searches.run_add term recent) <= 6 /\
   (forall x, In x (Searches.run_add term recent) -> x = Text.trim term \/ In x recent) /\
   (NoDup recent -> NoDup (Searches.run_add term recent))).
Proof.
  unfold Searches.run_add, Searches.addRecentSearch. cbv zeta.
  split; intros Hv.
  - rewrite Hv. reflexivity.
  - apply String.eqb_neq in Hv as E. rewrite E.
    rewrite firstn_cons. split; [reflexivity|].
    set (F := filter (fun item => negb (String.eqb item (Text.trim term))) recent).
    split; [exact (le_n_S _ _ (firstn_le_length 5 F))|].
    split.
    + intros x [H|H]; [left; symmetry; exact H|].
      apply In_firstn, filter_neq_In in H. right. apply H.
    + intros Hd. constructor.
      * intros H. apply In_firstn, filter_neq_In in H. apply H. reflexivity.
      * apply NoDup_firstn, NoDup_filter. exact Hd.
Qed.

Lemma addRecentSearch_front_witness :
  hd_error (Searches.run_add " b " ["a"; "b"]) = Some "b".
Proof.
  exact (proj1 (proj2 (addRecentSearch_front " b " ["a"; "b"]) ltac:(vm_compute; discriminate))).
Defined.

(** [addRecentSearch] with the same term twice leaves the list as once. *)
Theorem addRecentSearch_idempotent (term : string) (recent : list string) :
  Searches.run_add term (Searches.run_add term recent) = Searches.run_add term recent.
Proof.
  unfold Searches.run_add, Searches.addRecentSearch. cbv zeta.
  destruct (String.eqb (Text.trim term) "") eqn:E; [reflexivity|].
  rewrite !firstn_cons. cbn [filter]. rewrite String.eqb_refl. cbn [negb].
  rewrite filter_all.
  - rewrite firstn_firstn. reflexivity.
  - intros x Hx. apply In_firstn, filter_neq_In in Hx as [Hx _].
    apply negb_true_iff, String.eqb_neq. exact Hx.
Qed.

(** [markAllNotificationsRead] keeps every notification and leaves
    [getUnreadCount] at 0. *)
Theorem markAll_unread_zero (ns : list Notifications.NotificationItem) :
  Notifications.getUnreadCount (Notifications.markAllNotificationsRead ns) = 0 /\
  length (Notifications.markAllNotificationsRead ns) = length ns /\
  map Notifications.id (Notifications.markAllNotificationsRead ns) = map Notifications.id ns.
Proof.
  unfold Notifications.getUnreadCount, Notifications.markAllNotificationsRead.
  induction ns as [|n ns [IH1 [IH2 IH3]]]; simpl; [repeat split|].
  rewrite IH1, IH2, IH3. repeat split.
Qed.

(** [markNotificationRead id] lowers [getUnreadCount] by exactly the
    number of unread notifications with that id, and changes only those. *)
Theorem markNotificationRead_count (nid : string)
  (ns : list Notifications.NotificationItem) :
  Notifications.getUnreadCount (Notifications.markNotificationRead nid ns) +
  length (filter (fun n => String.eqb (Notifications.id n) nid
                           && negb (Notifications.read n)) ns) =
  Notifications.getUnreadCount ns /\
  (forall n, In n ns -> Notifications.id n <> nid ->
             In n (Notifications.markNotificationRead nid ns)).
Proof.
  unfold Notifications.getUnreadCount, Notifications.markNotificationRead.
  split.
  - induction ns as [|n ns IH]; simpl; [reflexivity|].
    destruct (String.eqb (Notifications.id n) nid), (Notifications.read n); simpl; lia.
  - intros n Hn Hne. apply in_map_iff. exists n. split; [|exact Hn].
    apply String.eqb_neq in Hne. rewrite Hne. reflexivity.
Qed.

Lemma markNotificationRead_count_witness :
  In (Notifications.mkNotification "n2" Notifications.KLike "t" "d" false 1)
     (Notifications.markNotificationRead "n1"
        [Notifications.mkNotification "n1" Notifications.KReply "t" "d" false 0;
         Notifications.mkNotification "n2" Notifications.KLike "t" "d" false 1]).
Proof.
  apply (proj2 (markNotificationRead_count "n1"
    [Notifications.mkNotification "n1" Notifications.KReply "t" "d" false 0;
     Notifications.mkNotification "n2" Notifications.KLike "t" "d" false 1])).
  - right. left. reflexivity.
  - simpl. discriminate.
Defined.

(** [attemptUsernameChange]: a refused change leaves the profile as it
    was; an accepted one sets the username to the normalized input, which
    matches [^[a-z0-9_]{3,20}$], differs from the old normalized username
    and was not taken; the taken list then holds the new name but not the
    old one, stays duplicate-free if it was, and the current user's entry in
    [people] carries the new username. *)
Theorem attemptUsernameChange_outcome (desired : string) (s : Profile.ProfileState) :
  let '(s', r) := Profile.attemptUsernameChange desired s in
  let next := Text.normalizeUsername desired in
  let current := Text.normalizeUsername (Profile.username s) in
  (Profile.success r = false -> s' = s) /\
  (Profile.success r = true ->
   Profile.username s' = next /\ Text.username_format next = true /\
   next <> current /\ ~ In next (Profile.takenUsernames s) /\
   In next (Profile.takenUsernames s') /\ ~ In current (Profile.takenUsernames s') /\
   (NoDup (Profile.takenUsernames s) -> NoDup (Profile.takenUsernames s')) /\
   (forall p, In p (Profile.people s') -> Users._id p = Profile.currentUserId s ->
              Users.username p = Some next)).
Proof.
  unfold Profile.attemptUsernameChange. cbv zeta.
  destruct (String.eqb (Text.normalizeUsername desired) "") eqn:E1;
    [split; [reflexivity|discriminate]|].
  destruct (String.eqb (Text.normalizeUsername desired)
              (Text.normalizeUsername (Profile.username s))) eqn:E2;
    [split; [reflexivity|discriminate]|].
  destruct (Text.username_format (Text.normalizeUsername desired)) eqn:E3;
    [|split; [reflexivity|discriminate]].
  destruct (includes (Profile.takenUsernames s) (Text.normalizeUsername desired)) eqn:E4;
    [split; [reflexivity|discriminate]|].
  simpl. split; [discriminate|]. intros _.
  apply String.eqb_neq in E2. apply includes_false in E4.
  split; [reflexivity|]. split; [reflexivity|]. split; [exact E2|]. split; [exact E4|].
  split; [apply in_or_app; right; left; reflexivity|].
  split.
  - intros H. apply in_app_iff in H as [H|[H|[]]].
    + apply filter_neq_In in H. apply H. reflexivity.
    + apply E2. exact H.
  - split.
    + intros Hd. apply NoDup_snoc; [apply NoDup_filter; exact Hd|].
      intros H. apply filter_neq_In in H. apply E4, H.
    + intros p Hp Hid. apply in_map_iff in Hp as [q [<- Hq]].
      destruct (String.eqb (Users._id q) (Profile.currentUserId s)) eqn:E5;
        [reflexivity|].
      apply String.eqb_neq in E5. contradiction.
Qed.

Lemma attemptUsernameChange_outcome_witness :
  Profile.username (fst (Profile.attemptUsernameChange " New_One "
    (Profile.mkProfile "Charlz" "one" "user-current" [] ["one"; "adaobi"]))) = "new_one".
Proof.
  pose proof (attemptUsernameChange_outcome " New_One "
    (Profile.mkProfile "Charlz" "one" "user-current" [] ["one"; "adaobi"])) as H.
  vm_compute in H. destruct H as [_ H].
  destruct (H eq_refl) as [H1 _]. vm_compute. exact H1.
Defined.

(** [setPeople]: [takenUsernames] becomes the duplicate-free list of the
    non-empty normalized handles ([username ?? displayName ?? ''])
    of the people given, and [people] is that list. *)
Theorem setPeople_takenUsernames (ps : list Users.User) (s : Profile.ProfileState) :
  let t := Profile.takenUsernames (Profile.setPeople ps s) in
  Profile.people (Profile.setPeople ps s) = ps /\
  NoDup t /\ ~ In "" t /\
  (forall x, In x t <-> exists p, In p ps /\ Profile.person_handle p = x /\ x <> "").
Proof.
  cbv zeta. simpl. unfold array_from_set.
  assert (Hi : forall x, In x (dedup_acc []
            (filter (fun v => negb (String.eqb v "")) (map Profile.person_handle ps))) <->
          exists p, In p ps /\ Profile.person_handle p = x /\ x <> "").
  { intros x. rewrite dedup_acc_In, filter_In, in_map_iff. simpl.
    split.
    - intros [[]|[[p [Hp Hin]] Hne]]. apply negb_true_iff, String.eqb_neq in Hne.
      exists p. auto.
    - intros [p [Hin [Hp Hne]]]. right. split; [exists p; auto|].
      apply negb_true_iff, String.eqb_neq. exact Hne. }
  split; [reflexivity|]. split; [apply dedup_acc_NoDup; constructor|].
  split; [|exact Hi].
  intros H. apply Hi in H as [p [_ [_ Hne]]]. apply Hne. reflexivity.
Qed.

(** The hook's [hidePost] for a signed-in viewer who is not the author,
    when the mutation resolves: the post is in the hidden list exactly when
    the result says [hidden]. *)
Theorem hook_hidePost_resolved (postId postAuthorId : string) (r : Hook.HideResult)
  (s : SettingsState) :
  currentUserId s <> "" -> currentUserId s <> postAuthorId ->
  snd (Hook.hidePost postId postAuthorId (Resolved r) s) = Return r /\
  (In postId (hiddenPostIds (fst (Hook.hidePost postId postAuthorId (Resolved r) s)))
   <-> Hook.hidden r = true).
Proof.
  intros H1 H2. unfold Hook.hidePost, hidePost_begin.
  apply String.eqb_neq in H1, H2. rewrite H1, H2. simpl.
  split; [reflexivity|].
  assert (Hin : In postId (hiddenPostIds
            (if negb (includes (hiddenPostIds s) postId) then run (Store.hidePost postId) s else s))).
  { destruct (includes (hiddenPostIds s) postId) eqn:E; simpl.
    - apply includes_In. exact E.
    - unfold run, Store.hidePost. rewrite E. simpl. apply in_or_app. right. left. reflexivity. }
  revert Hin.
  generalize (if negb (includes (hiddenPostIds s) postId)
              then run (Store.hidePost postId) s else s) as s1. intros s1 Hin.
  destruct (Hook.hidden r); simpl; [split; auto|].
  unfold run, Store.unhidePost. apply includes_In in Hin as Hin'. rewrite Hin'. simpl.
  rewrite In_remove_id. split; [intros [_ H]; contradiction H; reflexivity|discriminate].
Qed.

Lemma hook_hidePost_resolved_witness :
  In "p1" (hiddenPostIds (fst (Hook.hidePost "p1" "a" (Resolved (Hook.mkHideResult true))
                                 (mkState "u" [] [])))).
Proof.
  apply (proj2 (hook_hidePost_resolved "p1" "a" (Hook.mkHideResult true) (mkState "u" [] [])
                  ltac:(simpl; discriminate) ltac:(simpl; discriminate))).
  reflexivity.
Defined.

(** The store's [toggleLike] applied twice to the same id gives every id
    its membership back. *)
Theorem store_toggleLike_twice (postId : string) (s : SettingsState) :
  forall x, In x (likedPostIds (run (Store.toggleLike postId) (run (Store.toggleLike postId) s)))
            <-> In x (likedPostIds s).
Proof.
  intros x. unfold run, Store.toggleLike. simpl.
  destruct (includes (likedPostIds s) postId) eqn:E; simpl.
  - assert (Hr : includes (remove_id (likedPostIds s) postId) postId = false).
    { apply includes_false. rewrite In_remove_id. tauto. }
    rewrite Hr. simpl. rewrite in_app_iff, In_remove_id. simpl.
    apply includes_In in E.
    destruct (String.eqb_spec x postId) as [->|Hne]; [tauto|]. intuition congruence.
  - assert (Hr : includes (likedPostIds s ++ [postId]) postId = true).
    { apply includes_In. apply in_or_app. right. left. reflexivity. }
    rewrite Hr. simpl. rewrite In_remove_id, in_app_iff. simpl.
    apply includes_false in E.
    destruct (String.eqb_spec x postId) as [->|Hne]; [tauto|]. intuition congruence.
Qed.

(* ------------------------------------------------------------------ *)
(** ** The hook against the server, and the server's read side *)

Module SyncFacts.

Lemma toggleLike_WF_result (db : DB) (pid : nat) (uid : string) (now : nat) :
  WF db ->
  match Server.toggleLike pid uid now db with
  | Ok r db' =>
      existsb (match_post_user pid uid) (postLikes db') = Server.liked r /\
      Server.liked r = negb (existsb (match_post_user pid uid) (postLikes db)) /\
      posts db' = map (patch_likeCount pid (resLikeCount r)) (posts db)
  | Err e => e = postNotFound /\ find (fun q => Nat.eqb (p_id q) pid) (posts db) = None
  end.
Proof.
  intros [Ha _]. rewrite toggleLike_eq.
  destruct (find _ (posts db)) as [p|] eqn:Ep; [|split; reflexivity].
  specialize (Ha pid uid).
  destruct (filter (match_post_user pid uid) (postLikes db)) as [|r [|r2 rest]] eqn:Ef;
    [| | simpl in Ha; lia]; simpl.
  - apply filter_nil_existsb in Ef. rewrite Ef, existsb_app. simpl.
    rewrite match_post_user_new, orb_true_r. repeat split.
  - rewrite (existsb_single _ _ _ Ef), (delete_matched_gone _ _ _ Ef). repeat split.
Qed.

Lemma hidePost_ok (db : DB) (pid : nat) (uid : string) (now : nat) (r : Server.HideResult)
  (db' : DB) :
  Server.hidePost pid uid now db = Ok r db' ->
  Server.hidden r = true /\ existsb (match_post_user pid uid) (hiddenPosts db') = true.
Proof.
  rewrite hidePost_eq. destruct (find _ (posts db)) as [p|]; [|discriminate].
  destruct (String.eqb (authorId p) uid); [discriminate|].
  destruct (filter (match_post_user pid uid) (hiddenPosts db)) as [|x [|x2 rest]] eqn:Ef;
    intros H; inversion H; subst; simpl.
  - rewrite existsb_app. simpl. rewrite match_post_user_new, orb_true_r. auto.
  - rewrite (existsb_single _ _ _ Ef). auto.
Qed.

Lemma hidePost_err_WF (db : DB) (pid : nat) (uid : string) (now : nat) (e : string) :
  WF db -> Server.hidePost pid uid now db = Err e ->
  existsb (match_post_user pid uid) (hiddenPosts db) = false.
Proof.
  intros [_ [Hb Hc]] H.
  destruct (existsb (match_post_user pid uid) (hiddenPosts db)) eqn:Ex; [exfalso|reflexivity].
  apply existsb_exists in Ex as [x [Hx Hm]].
  pose proof Hm as Hm'. unfold match_post_user in Hm'.
  apply andb_true_iff in Hm' as [Hp Hu].
  apply Nat.eqb_eq in Hp. apply String.eqb_eq in Hu. subst pid uid.
  destruct (Hc x Hx) as [p [Hf Hau]].
  rewrite hidePost_eq, Hf in H. apply String.eqb_neq in Hau. rewrite Hau in H.
  specialize (Hb (postId x) (userId x)).
  destruct (filter (match_post_user (postId x) (userId x)) (hiddenPosts db))
    as [|y [|y2 rest]] eqn:Ef; [| discriminate | simpl in Hb; lia].
  assert (Hin : In x (filter (match_post_user (postId x) (userId x)) (hiddenPosts db)))
    by (apply filter_In; auto).
  rewrite Ef in Hin. destruct Hin.
Qed.

Lemma unhidePost_WF_gone (db : DB) (pid : nat) (uid : string) (r : Server.HideResult)
  (db' : DB) :
  WF db -> Server.unhidePost pid uid db = Ok r db' ->
  existsb (match_post_user pid uid) (hiddenPosts db') = false.
Proof.
  intros [_ [Hb _]]. specialize (Hb pid uid). rewrite unhidePost_eq.
  destruct (filter (match_post_user pid uid) (hiddenPosts db)) as [|x [|x2 rest]] eqn:Ef;
    [| | simpl in Hb; lia]; intros H; inversion H; subst; simpl.
  - apply filter_nil_existsb. exact Ef.
  - apply (delete_matched_gone _ _ _ Ef).
Qed.

(** The ids [getUserPreferences] lists for a user are the posts with a
    [(postId, userId)] document. *)
Lemma prefs_In (l : list Row) (pid : nat) (uid : string) :
  In pid (map postId (filter (fun r => String.eqb (userId r) uid) l)) <->
  existsb (match_post_user pid uid) l = true.
Proof.
  rewrite in_map_iff, existsb_exists. split.
  - intros [r [<- Hr]]. apply filter_In in Hr as [Hr Hu]. exists r. split; [exact Hr|].
    unfold match_post_user. rewrite Nat.eqb_refl, Hu. reflexivity.
  - intros [r [Hr Hm]]. unfold match_post_user in Hm.
    apply andb_true_iff in Hm as [Hp Hu]. apply Nat.eqb_eq in Hp.
    exists r. split; [exact Hp|]. apply filter_In. auto.
Qed.

Lemma prefs_NoDup (l : list Row) (uid : string) :
  (forall pid, length (filter (match_post_user pid uid) l) <= 1) ->
  NoDup (map postId (filter (fun r => String.eqb (userId r) uid) l)).
Proof.
  induction l as [|r l IH]; intros H; simpl; [constructor|].
  assert (H' : forall pid, length (filter (match_post_user pid uid) l) <= 1).
  { intros pid. specialize (H pid). simpl in H.
    destruct (match_post_user pid uid r); simpl in H; lia. }
  destruct (String.eqb (userId r) uid) eqn:Eu; simpl; [|apply IH; exact H'].
  constructor; [|apply IH; exact H'].
  intros Hin. apply prefs_In in Hin. specialize (H (postId r)). simpl in H.
  assert (Hm : match_post_user (postId r) uid r = true)
    by (unfold match_post_user; rewrite Nat.eqb_refl, Eu; reflexivity).
  rewrite Hm in H. simpl in H.
  destruct (filter (match_post_user (postId r) uid) l) eqn:Ef; [|simpl in H; lia].
  apply filter_nil_existsb in Ef. congruence.
Qed.

Lemma store_hidePost_member (x : string) (s : SettingsState) :
  In x (hiddenPostIds (run (Store.hidePost x) s)).
Proof.
  unfold run, Store.hidePost. destruct (includes (hiddenPostIds s) x) eqn:E; simpl.
  - apply includes_In. exact E.
  - apply in_or_app. right. left. reflexivity.
Qed.

Lemma store_hidePost_other (x y : string) (s : SettingsState) :
  y <> x -> In y (hiddenPostIds (run (Store.hidePost x) s)) <-> In y (hiddenPostIds s).
Proof.
  intros Hne. unfold run, Store.hidePost.
  destruct (includes (hiddenPostIds s) x); simpl; [tauto|].
  rewrite in_app_iff. simpl. intuition congruence.
Qed.

Lemma store_unhidePost_gone (x : string) (s : SettingsState) :
  ~ In x (hiddenPostIds (run (Store.unhidePost x) s)).
Proof.
  unfold run, Store.unhidePost. destruct (includes (hiddenPostIds s) x) eqn:E; simpl.
  - rewrite In_remove_id. intros [_ H]. apply H. reflexivity.
  - apply includes_false. exact E.
Qed.

Lemma find_filter_self (ps : list Post) (id : nat) :
  find (fun q => Nat.eqb (p_id q) id) (filter (fun q => negb (Nat.eqb (p_id q) id)) ps) = None.
Proof.
  destruct (find _ _) as [q|] eqn:E; [exfalso|reflexivity].
  apply find_some in E as [Hq Hid]. apply filter_In in Hq as [_ Hn].
  rewrite Hid in Hn. discriminate.
Qed.

Lemma deleted_rows_other (rs : list Row) (id : nat) (r : Row) :
  In r (filter (not_in_ids (filter (fun x => Nat.eqb (postId x) id) rs)) rs) -> postId r <> id.
Proof.
  intros Hr Heq. apply filter_In in Hr as [Hr Hn].
  rewrite not_in_ids_self in Hn; [discriminate|].
  apply filter_In. split; [exact Hr|]. apply Nat.eqb_eq. exact Heq.
Qed.

End SyncFacts.

Import SyncFacts.

(** One [toggleLike] of the hook answered by the Convex [toggleLike], on a
    database the mutations can produce: if the client's liked list agreed
    with the server's like document before, it agrees after, whether the
    mutation resolved or was rejected (and also when the viewer is signed
    out, as nothing is sent). *)
Theorem like_round_consistent (tr : list call) (cid : string) (pid now : nat)
  (s : SettingsState) :
  let db := run_trace tr in
  let uid := currentUserId s in
  (In cid (likedPostIds s) <-> existsb (match_post_user pid uid) (postLikes db) = true) ->
  In cid (likedPostIds (fst (Sync.like_round cid pid now s db))) <->
  existsb (match_post_user pid uid) (postLikes (snd (Sync.like_round cid pid now s db))) = true.
Proof.
  cbv zeta. pose proof (run_trace_WF tr) as HW. set (db := run_trace tr) in *. intros Hc.
  unfold Sync.like_round, toggleLike_begin.
  destruct (String.eqb (currentUserId s) "") eqn:Eu; [exact Hc|].
  pose proof (toggleLike_WF_result db pid (currentUserId s) now HW) as HR.
  destruct (Server.toggleLike pid (currentUserId s) now db) as [r db'|e]; simpl.
  - rewrite applyLikeState_member. destruct HR as [HR _]. rewrite HR. tauto.
  - rewrite applyLikeState_member, includes_In. exact Hc.
Qed.

Lemma like_round_consistent_witness :
  In "p0" (likedPostIds (fst (Sync.like_round "p0" 0 5 (mkState "u" [] [])
                               (run_trace [CCreate "a" None])))) <->
  existsb (match_post_user 0 "u")
    (postLikes (snd (Sync.like_round "p0" 0 5 (mkState "u" [] []) (run_trace [CCreate "a" None]))))
  = true.
Proof.
  apply (like_round_consistent [CCreate "a" None] "p0" 0 5 (mkState "u" [] [])).
  vm_compute. split; [intros []|intros H; discriminate].
Defined.

(** One [hidePost] of the hook answered by the Convex [hidePost], on a
    database the mutations can produce: if the client's hidden list agreed
    with the server's hidden document before, it agrees after, whether the
    mutation resolved or was rejected (and also when the hook refuses before
    sending anything). *)
Theorem hide_round_consistent (tr : list call) (cid postAuthorId : string) (pid now : nat)
  (s : SettingsState) :
  let db := run_trace tr in
  let uid := currentUserId s in
  (In cid (hiddenPostIds s) <-> existsb (match_post_user pid uid) (hiddenPosts db) = true) ->
  In cid (hiddenPostIds (fst (Sync.hide_round cid postAuthorId pid now s db))) <->
  existsb (match_post_user pid uid)
    (hiddenPosts (snd (Sync.hide_round cid postAuthorId pid now s db))) = true.
Proof.
  cbv zeta. pose proof (run_trace_WF tr) as HW. set (db := run_trace tr) in *. intros Hc.
  unfold Sync.hide_round, hidePost_begin.
  destruct (String.eqb (currentUserId s) "") eqn:Eu; [exact Hc|].
  destruct (String.eqb (currentUserId s) postAuthorId) eqn:Ea; [exact Hc|].
  destruct (Server.hidePost pid (currentUserId s) now db) as [r db'|e] eqn:Eh;
    cbn [Sync.remote fst snd hidePost_settle Sync.hide_to_client Hook.hidden].
  - apply hidePost_ok in Eh as [Hh Hex]. rewrite Hh, Hex. cbn [negb].
    split; [reflexivity|intros _].
    destruct (includes (hiddenPostIds s) cid) eqn:Ei; cbn [negb].
    + apply includes_In. exact Ei.
    + apply store_hidePost_member.
  - pose proof (hidePost_err_WF db pid (currentUserId s) now e HW Eh) as Hex.
    rewrite Hex in *. assert (Hn : ~ In cid (hiddenPostIds s)) by (rewrite Hc; discriminate).
    apply includes_false in Hn. rewrite Hn. cbn [negb].
    split; [intros H; contradiction (store_unhidePost_gone cid _ H)|discriminate].
Qed.

Lemma hide_round_consistent_witness :
  In "p0" (hiddenPostIds (fst (Sync.hide_round "p0" "a" 0 5 (mkState "u" [] [])
                               (run_trace [CCreate "a" None])))) <->
  existsb (match_post_user 0 "u")
    (hiddenPosts (snd (Sync.hide_round "p0" "a" 0 5 (mkState "u" [] [])
                         (run_trace [CCreate "a" None])))) = true.
Proof.
  apply (hide_round_consistent [CCreate "a" None] "p0" "a" 0 5 (mkState "u" [] [])).
  vm_compute. split; [intros []|intros H; discriminate].
Defined.

(** When the hook's [hidePost] goes through and the Convex [hidePost]
    succeeds, the feed ([visiblePosts] of HomeScreen) no longer shows the
    post, shows every other post it showed before, and the server keeps a
    hidden document for it. *)
Theorem hidden_post_leaves_feed (cid postAuthorId : string) (pid now : nat)
  (s : SettingsState) (db db' : DB) (r : Server.HideResult) (feed : list Sync.ClientPost) :
  currentUserId s <> "" -> currentUserId s <> postAuthorId ->
  Server.hidePost pid (currentUserId s) now db = Ok r db' ->
  let s' := fst (Sync.hide_round cid postAuthorId pid now s db) in
  snd (Sync.hide_round cid postAuthorId pid now s db) = db' /\
  existsb (match_post_user pid (currentUserId s)) (hiddenPosts db') = true /\
  (forall p, In p (Sync.visiblePosts feed (hiddenPostIds s')) -> Sync._id p <> cid) /\
  (forall p, In p (Sync.visiblePosts feed (hiddenPostIds s)) -> Sync._id p <> cid ->
             In p (Sync.visiblePosts feed (hiddenPostIds s'))).
Proof.
  intros H1 H2 Eh. cbv zeta.
  unfold Sync.hide_round, hidePost_begin.
  apply String.eqb_neq in H1, H2. rewrite H1, H2. rewrite Eh.
  apply hidePost_ok in Eh as [Hh Hex].
  cbn [Sync.remote fst snd hidePost_settle Sync.hide_to_client Hook.hidden].
  rewrite Hh. cbn [negb]. split; [reflexivity|]. split; [exact Hex|].
  assert (Hmem : forall y, In y (hiddenPostIds
            (if negb (includes (hiddenPostIds s) cid) then run (Store.hidePost cid) s else s))
            <-> y = cid \/ In y (hiddenPostIds s)).
  { intros y. destruct (includes (hiddenPostIds s) cid) eqn:Ei; cbn [negb].
    - apply includes_In in Ei. split; [tauto|intros [->|H]; auto].
    - destruct (String.eqb_spec y cid) as [->|Hne].
      + split; [tauto|intros _; apply store_hidePost_member].
      + rewrite store_hidePost_other by exact Hne. tauto. }
  unfold Sync.visiblePosts. split.
  - intros p Hp Heq. apply filter_In in Hp as [_ Hn].
    apply negb_true_iff, includes_false in Hn. apply Hn, Hmem. left. exact Heq.
  - intros p Hp Hne. apply filter_In in Hp as [Hp Hn]. apply filter_In. split; [exact Hp|].
    apply negb_true_iff, includes_false. apply negb_true_iff, includes_false in Hn.
    rewrite Hmem. intros [H|H]; contradiction.
Qed.

Lemma hidden_post_leaves_feed_witness :
  snd (Sync.hide_round "p0" "a" 0 5 (mkState "u" [] []) (run_trace [CCreate "a" None])) =
    mkDB [mkPost 0 "a" 0] [] [mkRow 1 0 "u" 5] 2 /\
  Sync.visiblePosts [Sync.mkClientPost "p0" "a"; Sync.mkClientPost "p1" "b"]
    (hiddenPostIds (fst (Sync.hide_round "p0" "a" 0 5 (mkState "u" [] [])
                           (run_trace [CCreate "a" None])))) =
  [Sync.mkClientPost "p1" "b"].
Proof.
  pose proof (hidden_post_leaves_feed "p0" "a" 0 5 (mkState "u" [] [])
    (run_trace [CCreate "a" None])
    (mkDB [mkPost 0 "a" 0] [] [mkRow 1 0 "u" 5] 2) (mkHideResult true)
    [Sync.mkClientPost "p0" "a"; Sync.mkClientPost "p1" "b"]
    ltac:(simpl; discriminate) ltac:(simpl; discriminate) eq_refl) as H.
  split; [exact (proj1 H)|]. vm_compute. reflexivity.
Defined.

(** On a database the mutations can produce, for an existing post, two
    [toggleLike] calls by the same user both succeed, the second returns the
    opposite [liked] of the first, and the user's like document is back to
    whether it existed before. *)
Theorem server_toggleLike_twice (tr : list call) (pid : nat) (uid : string) (now now' : nat)
  (p : Post) :
  find (fun q => Nat.eqb (p_id q) pid) (posts (run_trace tr)) = Some p ->
  exists r1 db1 r2 db2,
    Server.toggleLike pid uid now (run_trace tr) = Ok r1 db1 /\
    Server.toggleLike pid uid now' db1 = Ok r2 db2 /\
    Server.liked r2 = negb (Server.liked r1) /\
    existsb (match_post_user pid uid) (postLikes db2) =
      existsb (match_post_user pid uid) (postLikes (run_trace tr)).
Proof.
  pose proof (run_trace_WF tr) as HW. set (db := run_trace tr) in *. intros Hp.
  pose proof (toggleLike_WF_result db pid uid now HW) as H1.
  destruct (Server.toggleLike pid uid now db) as [r1 db1|e] eqn:E1;
    [|destruct H1 as [_ Hn]; congruence].
  destruct H1 as [Hx1 [Hl1 Hp1]].
  assert (HW1 : WF db1).
  { pose proof (exec_WF db (CToggleLike pid uid now) HW) as H.
    simpl in H. unfold commit in H. rewrite E1 in H. exact H. }
  pose proof (toggleLike_WF_result db1 pid uid now' HW1) as H2.
  destruct (Server.toggleLike pid uid now' db1) as [r2 db2|e] eqn:E2;
    [|destruct H2 as [_ Hn]; rewrite Hp1, find_patch, Hp in Hn; discriminate].
  destruct H2 as [Hx2 [Hl2 _]].
  exists r1, db1, r2, db2. split; [reflexivity|]. split; [exact E2|].
  rewrite Hl2, Hx1. split; [reflexivity|].
  rewrite Hx2, Hl2, Hx1, Hl1, negb_involutive. reflexivity.
Qed.

Lemma server_toggleLike_twice_witness :
  exists r1 db1 r2 db2,
    Server.toggleLike 0 "u" 5 (run_trace [CCreate "a" None]) = Ok r1 db1 /\
    Server.toggleLike 0 "u" 6 db1 = Ok r2 db2 /\
    Server.liked r2 = negb (Server.liked r1) /\
    existsb (match_post_user 0 "u") (postLikes db2) =
      existsb (match_post_user 0 "u") (postLikes (run_trace [CCreate "a" None])).
Proof.
  exact (server_toggleLike_twice [CCreate "a" None] 0 "u" 5 6 (mkPost 0 "a" 0) eq_refl).
Defined.

(** [getUserPreferences] on a database the mutations can produce: neither
    list repeats a post id, and a post id is listed exactly when the user has
    a like (respectively hidden) document for it. *)
Theorem getUserPreferences_exact (tr : list call) (uid : string) :
  let db := run_trace tr in
  NoDup (fst (Sync.getUserPreferences uid db)) /\
  NoDup (snd (Sync.getUserPreferences uid db)) /\
  (forall pid, In pid (fst (Sync.getUserPreferences uid db)) <->
               existsb (match_post_user pid uid) (postLikes db) = true) /\
  (forall pid, In pid (snd (Sync.getUserPreferences uid db)) <->
               existsb (match_post_user pid uid) (hiddenPosts db) = true).
Proof.
  cbv zeta. pose proof (run_trace_WF tr) as [Ha [Hb _]].
  unfold Sync.getUserPreferences. cbn [fst snd].
  split; [apply prefs_NoDup; intros pid; apply Ha|].
  split; [apply prefs_NoDup; intros pid; apply Hb|].
  split; intros pid; apply prefs_In.
Qed.

(** [getUserPreferences] after a mutation, on a database the mutations can
    produce: after a successful [toggleLike] the post is among the user's
    liked ids exactly when [liked] was returned; after a successful
    [hidePost] it is among the hidden ids; after [unhidePost] it is not. *)
Theorem getUserPreferences_after_mutation (tr : list call) (pid : nat) (uid : string)
  (now : nat) :
  let db := run_trace tr in
  (forall r db', Server.toggleLike pid uid now db = Ok r db' ->
     In pid (fst (Sync.getUserPreferences uid db')) <-> Server.liked r = true) /\
  (forall r db', Server.hidePost pid uid now db = Ok r db' ->
     In pid (snd (Sync.getUserPreferences uid db'))) /\
  (forall r db', Server.unhidePost pid uid db = Ok r db' ->
     ~ In pid (snd (Sync.getUserPreferences uid db'))).
Proof.
  cbv zeta. pose proof (run_trace_WF tr) as HW. set (db := run_trace tr) in *.
  unfold Sync.getUserPreferences. cbn [fst snd].
  split; [|split]; intros r db' H; rewrite prefs_In.
  - pose proof (toggleLike_WF_result db pid uid now HW) as HR. rewrite H in HR.
    destruct HR as [HR _]. rewrite HR. reflexivity.
  - apply hidePost_ok in H as [_ Hex]. exact Hex.
  - rewrite (unhidePost_WF_gone db pid uid r db' HW H). discriminate.
Qed.

Lemma getUserPreferences_after_mutation_witness :
  In 0 (snd (Sync.getUserPreferences "u"
               (mkDB [mkPost 0 "a" 0] [] [mkRow 1 0 "u" 5] 2))).
Proof.
  apply (proj1 (proj2 (getUserPreferences_after_mutation [CCreate "a" None] 0 "u" 5))
           (mkHideResult true) (mkDB [mkPost 0 "a" 0] [] [mkRow 1 0 "u" 5] 2)).
  reflexivity.
Defined.

(** [deletePost]: the two checks it makes before touching anything: a
    missing post throws "Post not found", another user's post throws "You
    can only delete your own post."; and when it succeeds, the requester
    was the author, the post is gone, no like or hidden document of it is
    left, and every other post stays. *)
Theorem deletePost_outcome (id : nat) (req : string) (db : DB) :
  (find (fun q => Nat.eqb (p_id q) id) (posts db) = None ->
   Server.deletePost id req db = Err postNotFound) /\
  (forall p, find (fun q => Nat.eqb (p_id q) id) (posts db) = Some p -> authorId p <> req ->
   Server.deletePost id req db = Err "You can only delete your own post.") /\
  (forall u db', Server.deletePost id req db = Ok u db' ->
   (exists p, find (fun q => Nat.eqb (p_id q) id) (posts db) = Some p /\ authorId p = req) /\
   find (fun q => Nat.eqb (p_id q) id) (posts db') = None /\
   (forall r, In r (postLikes db') \/ In r (hiddenPosts db') -> postId r <> id) /\
   (forall q, In q (posts db) -> p_id q <> id -> In q (posts db'))).
Proof.
  split; [|split].
  - intros Hn. rewrite deletePost_eq, Hn. reflexivity.
  - intros p Hp Ha. rewrite deletePost_eq, Hp.
    apply String.eqb_neq in Ha. rewrite Ha. reflexivity.
  - intros u db'. rewrite deletePost_eq.
    destruct (find _ (posts db)) as [p|] eqn:Ep; [|discriminate].
    destruct (String.eqb (authorId p) req) eqn:Ea; cbn [negb]; [|discriminate].
    intros H. inversion H; subst; clear H.
    apply String.eqb_eq in Ea. cbn [posts postLikes hiddenPosts].
    split; [exists p; auto|]. split; [apply find_filter_self|]. split.
    + intros r [Hr|Hr]; eapply deleted_rows_other; exact Hr.
    + intros q Hq Hne. apply filter_In. split; [exact Hq|].
      apply negb_true_iff, Nat.eqb_neq. exact Hne.
Qed.

Lemma deletePost_outcome_witness :
  Server.deletePost 0 "b" (run_trace [CCreate "a" None]) =
    Err "You can only delete your own post." /\
  find (fun q => Nat.eqb (p_id q) 0)
    (posts (commit (Server.deletePost 0 "a") (run_trace [CCreate "a" None]))) = None.
Proof.
  destruct (deletePost_outcome 0 "b" (run_trace [CCreate "a" None])) as [_ [H2 _]].
  destruct (deletePost_outcome 0 "a" (run_trace [CCreate "a" None])) as [_ [_ H3]].
  split.
  - apply (H2 (mkPost 0 "a" 0) eq_refl). discriminate.
  - unfold commit. destruct (Server.deletePost 0 "a" (run_trace [CCreate "a" None]))
      as [u db'|e] eqn:E; [|discriminate].
    exact (proj1 (proj2 (H3 u db' eq_refl))).
Defined.

Module FreshFacts.

Lemma fresh_posts_map (pid n : nat) (ps : list Post) (k : nat) :
  (forall p, In p ps -> p_id p < k) ->
  forall p, In p (map (patch_likeCount pid n) ps) -> p_id p < k.
Proof.
  intros H p Hp. apply in_map_iff in Hp as [q [<- Hq]].
  unfold patch_likeCount. destruct (Nat.eqb (p_id q) pid); simpl; apply H; exact Hq.
Qed.

Lemma found_below (ps : list Post) (pid k : nat) (p : Post) :
  (forall q, In q ps -> p_id q < k) ->
  find (fun q => Nat.eqb (p_id q) pid) ps = Some p -> pid < k.
Proof.
  intros H Hf. apply find_some in Hf as [Hp Hid]. apply Nat.eqb_eq in Hid.
  subst pid. apply H. exact Hp.
Qed.

Lemma Fresh_empty : Fresh db_empty.
Proof. split; simpl; [intros p []|intros r [[]|[]]]. Qed.

Lemma exec_Fresh (db : DB) (c : call) : Fresh db -> Fresh (exec db c).
Proof.
  intros [Hp Hr].
  destruct c as [a lc | id req | pid uid now | pid uid now | pid uid]; simpl; unfold commit.
  - (* create *)
    unfold create, db_insert_post. split; simpl.
    + intros p Hin. apply in_app_iff in Hin as [Hin|[<-|[]]]; simpl; [|lia].
      specialize (Hp p Hin). lia.
    + intros r Hin. specialize (Hr r Hin). lia.
  - (* deletePost *)
    rewrite deletePost_eq. destruct (find _ (posts db)) as [p|]; [|split; auto].
    destruct (negb _); [split; auto|]. split; simpl.
    + intros q Hq. apply filter_In in Hq as [Hq _]. apply Hp. exact Hq.
    + intros r [Hin|Hin]; apply filter_In in Hin as [Hin _]; apply Hr; auto.
  - (* toggleLike *)
    rewrite toggleLike_eq. destruct (find _ (posts db)) as [p|] eqn:Ef; [|split; auto].
    pose proof (found_below _ _ _ _ Hp Ef) as Hpid.
    destruct (filter (match_post_user pid uid) (postLikes db)) as [|x [|x2 rest]];
      [| |split; auto]; split; simpl.
    + intros q Hq. specialize (fresh_posts_map _ _ _ _ Hp q Hq). lia.
    + intros r [Hin|Hin].
      * apply in_app_iff in Hin as [Hin|[<-|[]]]; simpl; [|lia].
        specialize (Hr r (or_introl Hin)). lia.
      * specialize (Hr r (or_intror Hin)). lia.
    + apply fresh_posts_map. exact Hp.
    + intros r [Hin|Hin]; [apply filter_In in Hin as [Hin _]|]; apply Hr; auto.
  - (* hidePost *)
    rewrite hidePost_eq. destruct (find _ (posts db)) as [p|] eqn:Ef; [|split; auto].
    pose proof (found_below _ _ _ _ Hp Ef) as Hpid.
    destruct (String.eqb (authorId p) uid); [split; auto|].
    destruct (filter (match_post_user pid uid) (hiddenPosts db)) as [|x [|x2 rest]];
      [| split; auto | split; auto]. split; simpl.
    + intros q Hq. specialize (Hp q Hq). lia.
    + intros r [Hin|Hin].
      * specialize (Hr r (or_introl Hin)). lia.
      * apply in_app_iff in Hin as [Hin|[<-|[]]]; simpl; [|lia].
        specialize (Hr r (or_intror Hin)). lia.
  - (* unhidePost *)
    rewrite unhidePost_eq.
    destruct (filter (match_post_user pid uid) (hiddenPosts db)) as [|x [|x2 rest]];
      [split; auto| |split; auto]. split; simpl; [exact Hp|].
    intros r [Hin|Hin]; [|apply filter_In in Hin as [Hin _]]; apply Hr; auto.
Qed.

Lemma run_trace_Fresh (tr : list call) : Fresh (run_trace tr).
Proof.
  unfold run_trace. generalize Fresh_empty. generalize db_empty.
  induction tr as [|c tr IH]; intros db Hdb; simpl; [exact Hdb|].
  apply IH. apply exec_Fresh. exact Hdb.
Qed.

Lemma find_absent (ps : list Post) (k : nat) :
  (forall q, In q ps -> p_id q <> k) -> find (fun q => Nat.eqb (p_id q) k) ps = None.
Proof.
  intros H. destruct (find _ ps) as [q|] eqn:E; [exfalso|reflexivity].
  apply find_some in E as [Hq Hk]. apply Nat.eqb_eq in Hk. exact (H q Hq Hk).
Qed.

End FreshFacts.

Import FreshFacts.

(** [create] then [getById], on a database the mutations can produce: the
    returned id belongs to no earlier post and is named by no like or hidden
    document, and [getById] on it gives the new post, with the given author
    and [likeCount] [args.likeCount ?? 0]; every earlier post stays. *)
Theorem create_getById (tr : list call) (author : string) (argLikeCount : option nat) :
  let db := run_trace tr in
  match Server.create author argLikeCount db with
  | Ok id db' =>
      (forall q, In q (posts db) -> p_id q <> id) /\
      existsb (fun r => Nat.eqb (postId r) id) (postLikes db' ++ hiddenPosts db') = false /\
      db_get id db' =
        Ok (Some (mkPost id author (match argLikeCount with Some n => n | None => 0 end))) db' /\
      (forall q, In q (posts db) -> In q (posts db'))
  | Err _ => False
  end.
Proof.
  cbv zeta. pose proof (run_trace_Fresh tr) as [Hp Hr].
  set (db := run_trace tr) in *.
  unfold Server.create, db_insert_post, db_get. cbn [posts postLikes hiddenPosts].
  assert (Hq : forall q, In q (posts db) -> p_id q <> nextId db)
    by (intros q Hin; specialize (Hp q Hin); lia).
  split; [exact Hq|]. split.
  - destruct (existsb _ _) eqn:E; [exfalso|reflexivity].
    apply existsb_exists in E as [r [Hin Hid]]. apply Nat.eqb_eq in Hid.
    apply in_app_iff in Hin. specialize (Hr r Hin). lia.
  - split.
    + rewrite find_app, (find_absent _ _ Hq). simpl. rewrite Nat.eqb_refl. reflexivity.
    + intros q Hin. apply in_or_app. left. exact Hin.
Qed.
